(** * Swap-and-bridge orchestrator: a shallow embedding

    The progress-tracked orchestrator of [src/executeSwapAndBridge.ts] and the
    swap-action update hooks of the two entry scripts, embedded as state-passing
    functions over an explicit world, with every call to an external
    collaborator (chain clients, bridge SDK, ABI encoder, progress callback)
    recorded in a call trace.  Further on: the helpers of [utils/helpers.ts]
    and [utils/transactions.ts], the bridge-then-swap script [executeSwap]
    with its journal of external calls, and the progress callbacks of both
    scripts. *)

From Stdlib Require Import ZArith List String Bool Lia Sorted DecimalString.
Import ListNotations.

Open Scope string_scope.
Open Scope Z_scope.

(** ** Values *)

Definition Address := string.
Definition Hash := string.
Definition Hex := string.

(** A thrown value; [new Error(msg)] is [mkError msg]. *)
Record Error := mkError { message : string }.

(** The outcome of evaluating a JavaScript call: a value or a throw. *)
Inductive Completion (A : Type) : Type :=
| Normal (a : A)
| Throw (e : Error).
Arguments Normal {A} a.
Arguments Throw {A} e.

Definition thrown {A} (c : Completion A) : option Error :=
  match c with
  | Normal _ => None
  | Throw e => Some e
  end.

(** [x = dflt] in a destructuring pattern: the default applies to [undefined]. *)
Definition withDefault {A} (dflt : A) (x : option A) : A :=
  match x with
  | Some v => v
  | None => dflt
  end.

(** [maxUint256] of viem: [2n ** 256n - 1n]. *)
Definition maxUint256 : Z := 2 ^ 256 - 1.

Record Chain := { id : Z; chainName : string }.

Record Log := { logAddress : Address; topics : list Hex; logData : Hex }.

Record TransactionReceipt := {
  transactionHash : Hash;
  blockNumber : Z;
  receiptStatus : string;
  logs : list Log
}.

(** ** Periphery data ([utils/peripheryAbi]) *)

(** Modelled from the spec: the [TransferType] enum is declared in
    [utils/peripheryAbi], which is not among the sources; the data model gives
    it as "direct transfer vs. approval-based pull". *)
Inductive TransferType := Approval | Transfer.

Record Fees := { amount : Z; recipient : Address }.

Module BaseDepositData.
Record t := {
  inputToken : Address;
  outputToken : Hex;
  outputAmount : Z;
  depositor : Address;
  recipient : Hex;
  destinationChainId : Z;
  exclusiveRelayer : Hex;
  quoteTimestamp : Z;
  fillDeadline : Z;
  exclusivityParameter : Z;
  message : Hex
}.
End BaseDepositData.

Record SwapAndDepositData := {
  submissionFees : Fees;
  depositData : BaseDepositData.t;
  swapToken : Address;
  exchange : Address;
  transferType : TransferType;
  swapTokenAmount : Z;
  minExpectedInputTokenAmount : Z;
  routerCalldata : Hex;
  enableProportionalAdjustment : bool;
  spokePool : Address;
  nonce : Z
}.

(** ** Progress events *)

Record ApproveMeta := { approvalAmount : Z; spender : Address }.

Module SwapAndBridgeMeta.
Record t := { swapAndDepositData : SwapAndDepositData }.
End SwapAndBridgeMeta.

Module FillMeta.
Record t := { depositId : Z }.
End FillMeta.

Inductive ProgressMeta :=
| MetaApprove (m : ApproveMeta)
| MetaSwapAndBridge (m : SwapAndBridgeMeta.t)
| MetaFill (m : FillMeta.t)
| MetaUndefined.

(** Return types of the SDK's log parsers; both may be [undefined]. *)
Record DepositLog := { depositLogId : Z; depositLogTxHash : Hash }.
Record FillLog := {
  fillLogDepositId : option Z;
  fillLogInputAmount : option Z;
  fillLogOutputAmount : option Z;
  relayer : Address
}.

Inductive Step := approve | swapAndBridge | fill.
Inductive Status := idle | txPending | txSuccess | pending | error.

(** The union [SwapAndBridgeProgress], one constructor per variant.  The error
    variant is built by [{...currentProgress, status: "error", error, meta}], so
    it keeps the progress value it was spread from. *)
Inductive SwapAndBridgeProgress :=
| ApproveIdle
| ApproveTxPending (txHash : Hash) (meta : ApproveMeta)
| ApproveTxSuccess (txReceipt : TransactionReceipt) (meta : ApproveMeta)
| SwapAndBridgeTxPending (txHash : Hash) (meta : SwapAndBridgeMeta.t)
| SwapAndBridgeTxSuccess (txReceipt : TransactionReceipt) (depositId : Z)
    (depositLog : option DepositLog) (meta : SwapAndBridgeMeta.t)
| FillPending (meta : FillMeta.t)
| FillTxSuccess (txReceipt : TransactionReceipt) (fillTxTimestamp : Z)
    (actionSuccess : option bool) (meta : FillMeta.t) (fillLog : option FillLog)
| ProgressError (spread : SwapAndBridgeProgress) (err : Error) (meta : ProgressMeta).

Fixpoint step (p : SwapAndBridgeProgress) : Step :=
  match p with
  | ApproveIdle | ApproveTxPending _ _ | ApproveTxSuccess _ _ => approve
  | SwapAndBridgeTxPending _ _ | SwapAndBridgeTxSuccess _ _ _ _ => swapAndBridge
  | FillPending _ | FillTxSuccess _ _ _ _ _ => fill
  | ProgressError spread _ _ => step spread
  end.

Definition status (p : SwapAndBridgeProgress) : Status :=
  match p with
  | ApproveIdle => idle
  | ApproveTxPending _ _ | SwapAndBridgeTxPending _ _ => txPending
  | ApproveTxSuccess _ _ | SwapAndBridgeTxSuccess _ _ _ _
  | FillTxSuccess _ _ _ _ _ => txSuccess
  | FillPending _ => pending
  | ProgressError _ _ _ => error
  end.

Module Response.
(** [ExecuteSwapAndBridgeResponse]: every field optional. *)
Record t := {
  depositId : option Z;
  swapAndBridgeTxReceipt : option TransactionReceipt;
  fillTxReceipt : option TransactionReceipt;
  error : option Error
}.
End Response.

(** ** Requests handed to the external collaborators *)

Inductive FunctionCall :=
| FnApprove (spender : Address) (value : Z)
| FnSwapAndBridge (data : SwapAndDepositData).

(** viem's [encodeFunctionData] is injective on the selector and the arguments:
    calldata is kept in its decoded form.  Whether the encoder rejects its
    arguments is left to the environment (see [encodeRejects]). *)
Inductive Calldata := Encoded (f : FunctionCall).

Record TransactionRequest := {
  txAccount : option Address;
  txChain : Chain;
  txTo : Address;
  txData : Calldata;
  txValue : option Z
}.

Record SimulateRequest := {
  simAddress : Address;
  simFunctionName : string;
  simArgs : SwapAndDepositData;
  simAccount : Address;
  simValue : option Z
}.

Record FillDeposit := {
  fdOriginChainId : Z;
  fdDestinationChainId : Z;
  fdDestinationSpokePoolAddress : Address;
  fdMessage : Hex
}.

Record FillRequest := {
  frDeposit : FillDeposit;
  frDepositId : Z;
  frDepositTxHash : Hash;
  frFromBlock : Z
}.

Record DepositTx := { dtDepositId : Z; depositTxReceipt : TransactionReceipt }.

Record FillTx := {
  ftFillTxReceipt : TransactionReceipt;
  ftFillTxTimestamp : Z;
  ftActionSuccess : option bool
}.

(** ** The call trace *)

Inductive Call :=
| CReadContract (address : Address) (functionName : string) (args : list Address)
| CEncodeFunctionData (f : FunctionCall)
| CSendTransaction (req : TransactionRequest)
| CWaitForTransactionReceipt (hash : Hash)
| CSimulateContract (req : SimulateRequest)
| CWaitForDepositTx (originChainId : Z) (txHash : Hash)
| CParseDepositLogs (ls : list Log)
| CGetBlockNumber
| CWaitForFillTx (req : FillRequest)
| CParseFillLogs (ls : list Log)
| COnProgress (p : SwapAndBridgeProgress).

(** One external call and whether it threw. *)
Record Entry := { call : Call; threw : option Error }.

(** ** The orchestrator *)

Section Orchestrator.

(** The state of everything outside the orchestrator: chains, wallet,
    whatever the progress callback closes over. *)
Variable W : Type.

Record PublicClient := {
  readContract : Address -> string -> list Address -> W -> Completion Z * W;
  simulateContract : SimulateRequest -> W -> Completion unit * W;
  waitForTransactionReceipt : Hash -> W -> Completion TransactionReceipt * W;
  getBlockNumber : W -> Completion Z * W
}.

Record WalletClient := {
  account : option Address;
  sendTransaction : TransactionRequest -> W -> Completion Hash * W
}.

(** The imports from [@across-protocol/app-sdk] and [viem]. *)
Record Sdk := {
  waitForDepositTx : Z -> Hash -> W -> Completion DepositTx * W;
  waitForFillTx : FillRequest -> W -> Completion FillTx * W;
  parseDepositLogs : list Log -> Completion (option DepositLog);
  parseFillLogs : list Log -> Completion (option FillLog);
  encodeRejects : FunctionCall -> option Error
}.

Definition ProgressHandler := SwapAndBridgeProgress -> W -> Completion unit * W.

Record ExecuteSwapAndBridgeParams := {
  walletClient : WalletClient;
  originClient : PublicClient;
  destinationClient : PublicClient;
  originChain : Chain;
  destinationChain : Chain;
  userAddress : Address;
  swapAndDepositData : SwapAndDepositData;
  spokePoolPeripheryAddress : Address;
  destinationSpokePoolAddress : Address;
  isNative : option bool;
  infiniteApproval : option bool;
  skipAllowanceCheck : option bool;
  throwOnError : option bool;
  onProgress : option ProgressHandler
}.

(** The two mutable locals of [executeSwapAndBridge], the world, and the
    external calls made so far (oldest first). *)
Record Machine := {
  currentProgress : SwapAndBridgeProgress;
  currentProgressMeta : ProgressMeta;
  world : W;
  calls : list Entry
}.

Definition M (A : Type) : Type := Machine -> Completion A * Machine.

Definition ret {A} (a : A) : M A := fun m => (Normal a, m).

Definition throw {A} (e : Error) : M A := fun m => (Throw e, m).

Definition bind {A B} (c : M A) (k : A -> M B) : M B :=
  fun m =>
    match c m with
    | (Normal a, m') => k a m'
    | (Throw e, m') => (Throw e, m')
    end.

(** [try { body } catch (e) { handler }]: the handler runs in the state the
    body had reached when it threw. *)
Definition try_catch {A} (body : M A) (handler : Error -> M A) : M A :=
  fun m =>
    match body m with
    | (Normal a, m') => (Normal a, m')
    | (Throw e, m') => handler e m'
    end.

Definition set_currentProgress (p : SwapAndBridgeProgress) : M unit :=
  fun m =>
    (Normal tt,
     {| currentProgress := p;
        currentProgressMeta := currentProgressMeta m;
        world := world m;
        calls := calls m |}).

Definition set_currentProgressMeta (pm : ProgressMeta) : M unit :=
  fun m =>
    (Normal tt,
     {| currentProgress := currentProgress m;
        currentProgressMeta := pm;
        world := world m;
        calls := calls m |}).

(** A call to an external collaborator: it transforms the world, may throw,
    and is appended to the trace. *)
Definition external {A} (c : Call) (f : W -> Completion A * W) : M A :=
  fun m =>
    let (r, w') := f (world m) in
    (r,
     {| currentProgress := currentProgress m;
        currentProgressMeta := currentProgressMeta m;
        world := w';
        calls := calls m ++ [{| call := c; threw := thrown r |}] |}).

Definition pure_external {A} (c : Call) (r : Completion A) : M A :=
  external c (fun w => (r, w)).

Definition encodeFunctionData (sdk : Sdk) (f : FunctionCall) : M Calldata :=
  pure_external (CEncodeFunctionData f)
    match encodeRejects sdk f with
    | Some e => Throw e
    | None => Normal (Encoded f)
    end.

(** The default handler, [console.log("Progress:", progress)]. *)
Definition consoleLogProgress : ProgressHandler := fun _ w => (Normal tt, w).

(** [onProgressHandler(currentProgress)]. *)
Definition callOnProgressHandler (h : ProgressHandler) : M unit :=
  fun m => external (COnProgress (currentProgress m)) (h (currentProgress m)) m.

Definition initialMachine (w : W) : Machine :=
  {| currentProgress := ApproveIdle;
     currentProgressMeta := MetaUndefined;
     world := w;
     calls := [] |}.

Notation "x <- c ;; k" := (bind c (fun x => k))
  (at level 61, c at next level, right associativity).
Notation "c ;; k" := (bind c (fun _ => k))
  (at level 61, right associativity).

(** [executeSwapAndBridge(params)], run from world [w]: its completion and the
    machine it ends in. *)
Definition executeSwapAndBridge (sdk : Sdk) (params : ExecuteSwapAndBridgeParams)
  (w : W) : Completion Response.t * Machine :=
  let walletClient := walletClient params in
  let originChain := originChain params in
  let originClient := originClient params in
  let destinationChain := destinationChain params in
  let destinationClient := destinationClient params in
  let userAddress := userAddress params in
  let swapAndDepositData := swapAndDepositData params in
  let spokePoolPeripheryAddress := spokePoolPeripheryAddress params in
  let destinationSpokePoolAddress := destinationSpokePoolAddress params in
  let isNative := withDefault false (isNative params) in
  let infiniteApproval := withDefault false (infiniteApproval params) in
  let skipAllowanceCheck := withDefault false (skipAllowanceCheck params) in
  let throwOnError := withDefault true (throwOnError params) in
  let onProgressHandler :=
    callOnProgressHandler
      match onProgress params with
      | Some handler => handler
      | None => consoleLogProgress
      end in
  try_catch
    ((* Step 1: check and handle approval if necessary *)
     (if negb skipAllowanceCheck && negb isNative then
        allowance <-
          external
            (CReadContract (swapToken swapAndDepositData) "allowance"
               [userAddress; spokePoolPeripheryAddress])
            (readContract originClient (swapToken swapAndDepositData) "allowance"
               [userAddress; spokePoolPeripheryAddress]) ;;
        if swapTokenAmount swapAndDepositData >? allowance then
          let approvalAmount :=
            if infiniteApproval then maxUint256
            else swapTokenAmount swapAndDepositData in
          let approveMeta :=
            {| approvalAmount := approvalAmount;
               spender := spokePoolPeripheryAddress |} in
          set_currentProgressMeta (MetaApprove approveMeta) ;;
          approveCalldata <-
            encodeFunctionData sdk
              (FnApprove spokePoolPeripheryAddress approvalAmount) ;;
          let approveRequest :=
            {| txAccount := account walletClient;
               txChain := originChain;
               txTo := swapToken swapAndDepositData;
               txData := approveCalldata;
               txValue := None |} in
          approveTxHash <-
            external (CSendTransaction approveRequest)
              (sendTransaction walletClient approveRequest) ;;
          set_currentProgress (ApproveTxPending approveTxHash approveMeta) ;;
          onProgressHandler ;;
          approveTxReceipt <-
            external (CWaitForTransactionReceipt approveTxHash)
              (waitForTransactionReceipt originClient approveTxHash) ;;
          set_currentProgress (ApproveTxSuccess approveTxReceipt approveMeta) ;;
          onProgressHandler
        else ret tt
      else ret tt) ;;
     (* Step 2: execute swapAndBridge *)
     let swapAndBridgeMeta :=
       {| SwapAndBridgeMeta.swapAndDepositData := swapAndDepositData |} in
     set_currentProgressMeta (MetaSwapAndBridge swapAndBridgeMeta) ;;
     swapAndBridgeCalldata <-
       encodeFunctionData sdk
         (FnSwapAndBridge
            {| submissionFees := submissionFees swapAndDepositData;
               depositData := depositData swapAndDepositData;
               swapToken := swapToken swapAndDepositData;
               exchange := exchange swapAndDepositData;
               transferType := transferType swapAndDepositData;
               swapTokenAmount := swapTokenAmount swapAndDepositData;
               minExpectedInputTokenAmount :=
                 minExpectedInputTokenAmount swapAndDepositData;
               routerCalldata := routerCalldata swapAndDepositData;
               enableProportionalAdjustment :=
                 enableProportionalAdjustment swapAndDepositData;
               spokePool := spokePool swapAndDepositData;
               nonce := nonce swapAndDepositData |}) ;;
     (* first simulate the transaction to catch revert errors *)
     let simulateRequest :=
       {| simAddress := spokePoolPeripheryAddress;
          simFunctionName := "swapAndBridge";
          simArgs := swapAndDepositData;
          simAccount := userAddress;
          simValue :=
            if isNative then Some (swapTokenAmount swapAndDepositData)
            else None |} in
     try_catch
       (external (CSimulateContract simulateRequest)
          (simulateContract originClient simulateRequest))
       (fun simulateError => throw simulateError) ;;
     let swapAndBridgeRequest :=
       {| txAccount := account walletClient;
          txChain := originChain;
          txTo := spokePoolPeripheryAddress;
          txData := swapAndBridgeCalldata;
          txValue :=
            if isNative then Some (swapTokenAmount swapAndDepositData)
            else None |} in
     swapAndBridgeTxHash <-
       external (CSendTransaction swapAndBridgeRequest)
         (sendTransaction walletClient swapAndBridgeRequest) ;;
     set_currentProgress
       (SwapAndBridgeTxPending swapAndBridgeTxHash swapAndBridgeMeta) ;;
     onProgressHandler ;;
     (* wait for the deposit transaction and parse its logs *)
     deposit <-
       external (CWaitForDepositTx (id originChain) swapAndBridgeTxHash)
         (waitForDepositTx sdk (id originChain) swapAndBridgeTxHash) ;;
     let depositId := dtDepositId deposit in
     let depositTxReceipt := depositTxReceipt deposit in
     depositLog <-
       pure_external (CParseDepositLogs (logs depositTxReceipt))
         (parseDepositLogs sdk (logs depositTxReceipt)) ;;
     set_currentProgress
       (SwapAndBridgeTxSuccess depositTxReceipt depositId depositLog
          swapAndBridgeMeta) ;;
     onProgressHandler ;;
     (* Step 3: wait for the fill on the destination chain *)
     let fillMeta := {| FillMeta.depositId := depositId |} in
     set_currentProgressMeta (MetaFill fillMeta) ;;
     set_currentProgress (FillPending fillMeta) ;;
     onProgressHandler ;;
     destinationBlock <-
       external CGetBlockNumber (getBlockNumber destinationClient) ;;
     let fillRequest :=
       {| frDeposit :=
            {| fdOriginChainId := id originChain;
               fdDestinationChainId := id destinationChain;
               fdDestinationSpokePoolAddress := destinationSpokePoolAddress;
               fdMessage :=
                 BaseDepositData.message (depositData swapAndDepositData) |};
          frDepositId := depositId;
          frDepositTxHash := transactionHash depositTxReceipt;
          frFromBlock := destinationBlock - 100 |} in
     filled <-
       external (CWaitForFillTx fillRequest) (waitForFillTx sdk fillRequest) ;;
     let fillTxReceipt := ftFillTxReceipt filled in
     fillLog <-
       pure_external (CParseFillLogs (logs fillTxReceipt))
         (parseFillLogs sdk (logs fillTxReceipt)) ;;
     set_currentProgress
       (FillTxSuccess fillTxReceipt (ftFillTxTimestamp filled)
          (ftActionSuccess filled) fillMeta fillLog) ;;
     onProgressHandler ;;
     ret
       {| Response.depositId := Some depositId;
          Response.swapAndBridgeTxReceipt := Some depositTxReceipt;
          Response.fillTxReceipt := Some fillTxReceipt;
          Response.error := None |})
    (fun error m =>
       (set_currentProgress
          (ProgressError (currentProgress m) error (currentProgressMeta m)) ;;
        onProgressHandler ;;
        if negb throwOnError then
          ret
            {| Response.depositId := None;
               Response.swapAndBridgeTxReceipt := None;
               Response.fillTxReceipt := None;
               Response.error := Some error |}
        else throw error) m)
    (initialMachine w).

End Orchestrator.

Arguments readContract {W}.
Arguments simulateContract {W}.
Arguments waitForTransactionReceipt {W}.
Arguments getBlockNumber {W}.
Arguments account {W}.
Arguments sendTransaction {W}.
Arguments waitForDepositTx {W}.
Arguments waitForFillTx {W}.
Arguments parseDepositLogs {W}.
Arguments parseFillLogs {W}.
Arguments encodeRejects {W}.
Arguments walletClient {W}.
Arguments originClient {W}.
Arguments destinationClient {W}.
Arguments originChain {W}.
Arguments destinationChain {W}.
Arguments userAddress {W}.
Arguments swapAndDepositData {W}.
Arguments spokePoolPeripheryAddress {W}.
Arguments destinationSpokePoolAddress {W}.
Arguments isNative {W}.
Arguments infiniteApproval {W}.
Arguments skipAllowanceCheck {W}.
Arguments throwOnError {W}.
Arguments onProgress {W}.
Arguments currentProgress {W}.
Arguments currentProgressMeta {W}.
Arguments world {W}.
Arguments calls {W}.
Arguments consoleLogProgress {W}.
Arguments executeSwapAndBridge {W}.

(** ** Swap quotes and the swap-action update hooks *)

Definition Json := string.

Record RoutesRequest := {
  routesUrl : string;
  tokenIn : Address;
  tokenOut : Address;
  amountIn : string;
  gasInclude : bool
}.

(** The body of the build request; [routeSummary] is whatever
    [quoteData.data.routeSummary] evaluated to, [undefined] included. *)
Record BuildRequest := {
  buildUrl : string;
  routeSummary : option Json;
  sender : Address;
  buildRecipient : Address;
  slippageTolerance : Z
}.

(** [quoteData.data] when it is an object: its [routeSummary] property, which
    may be absent. *)
Record QuoteRoute := { quoteRouteSummary : option Json }.

(** [quoteData], the body of the routes answer.  [quoteDataData] is what
    reading a property off [quoteData.data] comes to: the object there, or
    the exception the runtime raises when [quoteData.data] is [undefined] or
    [null] (a TypeError whose message is the engine's, kept as the value
    raised). *)
Record QuoteData := { quoteDataData : Completion QuoteRoute }.

(** [quoteRequest.data] is [None] when it is falsy. *)
Record RoutesResponse := { routesData : option QuoteData }.

(** [calldataRequest.data.data] when it is an object, with the two properties
    destructured from it. *)
Record BuildData := { buildCalldata : option Hex; routerAddress : option Address }.

(** The build answer.  [buildDataData] is what destructuring
    [calldataRequest.data.data] comes to: the object there, or the exception
    the runtime raises when it, or [calldataRequest.data], is [undefined] or
    [null]. *)
Record BuildResponse := { buildDataData : Completion BuildData }.

Module SwapCallData.
Record t := { calldata : Hex; to : option Address }.
End SwapCallData.

Record UpdatedAction := { callData : Hex }.

(** [bigint.toString()]. *)
Definition toString (z : Z) : string := NilZero.string_of_int (Z.to_int z).

(** [!calldata] on a string-or-undefined value. *)
Definition falsy (s : option string) : bool :=
  match s with
  | None => true
  | Some s' => String.eqb s' ""
  end.

(** [a !== b] on two string-or-undefined values. *)
Definition strictNotEqual (a b : option string) : bool :=
  match a, b with
  | Some x, Some y => negb (String.eqb x y)
  | None, None => false
  | _, _ => true
  end.

Definition kyberTokenIn : Address := "0xaf88d065e77c8cC2239327C5EDb3A432268e5831".
Definition kyberTokenOut : Address := "0x82aF49447D8a07e3bd95BD0d56f35241523fBab1".
Definition destinationChainName : string := "arbitrum".
Definition destinationSwapTokenIn : Address :=
  "0xaf88d065e77c8cC2239327C5EDb3A432268e5831".
Definition destinationSwapTokenOut : Address :=
  "0xEeeeeEeeeEeEeeEeEeEeeEEEeeeeEeeeeeeeEEeE".
Definition destinationSwapSlippageBps : Z := 10.

Section SwapQuotes.

(** The swap aggregator behind the HTTP client. *)
Variable H : Type.

Record Axios := {
  get : RoutesRequest -> H -> Completion RoutesResponse * H;
  post : BuildRequest -> H -> Completion BuildResponse * H
}.

(** [KYBERSWAP_API_URL] of [utils/constants], which is not among the sources. *)
Variable KYBERSWAP_API_URL : string.

(** [generateSwapCallData] of [utils/transactions.ts]; its outer
    [catch (error) { console.error(...); throw error; }] re-raises unchanged. *)
Definition generateSwapCallData (axios : Axios)
  (amount : string) (tokenIn tokenOut sender recipient : Address)
  (chain : string) (initialQuote : bool) (h : H) : Completion SwapCallData.t * H :=
  match
    get axios
      {| routesUrl := KYBERSWAP_API_URL ++ "/" ++ chain ++ "/api/v1/routes";
         tokenIn := tokenIn;
         tokenOut := tokenOut;
         amountIn := amount;
         gasInclude := true |} h
  with
  | (Throw e, h1) => (Throw e, h1)
  | (Normal quoteRequest, h1) =>
      match routesData quoteRequest with
      | None => (Throw (mkError "No quote data returned"), h1)
      | Some quoteData =>
          match quoteDataData quoteData with
          | Throw typeError => (Throw typeError, h1)
          | Normal quoteRoute =>
              match
                post axios
                  {| buildUrl :=
                       KYBERSWAP_API_URL ++ "/" ++ chain ++ "/api/v1/route/build";
                     routeSummary := quoteRouteSummary quoteRoute;
                     sender := sender;
                     buildRecipient := recipient;
                     slippageTolerance := 100 |} h1
              with
              | (Throw e, h2) => (Throw e, h2)
              | (Normal calldataRequest, h2) =>
                  match buildDataData calldataRequest with
                  | Throw typeError => (Throw typeError, h2)
                  | Normal built =>
                      if falsy (buildCalldata built) then
                        (Throw (mkError "No calldata data returned"), h2)
                      else
                        (Normal
                           {| SwapCallData.calldata :=
                                withDefault "" (buildCalldata built);
                              SwapCallData.to := routerAddress built |},
                         h2)
                  end
              end
          end
      end
  end.

(** The [update] hook of the swap action in [executeSwap]; [to] is the router
    address of the initial quote, against which the action was built. *)
Definition executeSwap_update (axios : Axios) (to : option Address)
  (userAddress : Address) (updatedOutputAmount : Z) (h : H)
  : Completion UpdatedAction * H :=
  match
    generateSwapCallData axios (toString updatedOutputAmount) kyberTokenIn
      kyberTokenOut userAddress userAddress destinationChainName false h
  with
  | (Throw e, h') => (Throw e, h')
  | (Normal updated, h') =>
      let updatedCalldata := SwapCallData.calldata updated in
      let updatedTo := SwapCallData.to updated in
      if strictNotEqual to updatedTo then
        (Throw (mkError "Swap contract address changed"), h')
      else (Normal {| callData := updatedCalldata |}, h')
  end.

(** [generateSwapCallData] as the swap-bridge-swap script calls it, with a
    slippage argument after [tokenOut]; that variant of [utils/transactions]
    is not among the sources. *)
Variable generateSwapCallDataWithSlippage :
  string -> Address -> Address -> Z -> Address -> Address -> string -> bool ->
  H -> Completion SwapCallData.t * H.

(** The [update] hook of the swap action in [executeSwapBridgeSwap];
    [destExchange] is the router address of the quote used to build the
    cross-chain message. *)
Definition executeSwapBridgeSwap_update (destExchange : option Address)
  (userAddress : Address) (updatedOutputAmount : Z) (h : H)
  : Completion UpdatedAction * H :=
  match
    generateSwapCallDataWithSlippage (toString updatedOutputAmount)
      destinationSwapTokenIn destinationSwapTokenOut destinationSwapSlippageBps
      userAddress userAddress destinationChainName false h
  with
  | (Throw e, h') => (Throw e, h')
  | (Normal updated, h') =>
      let updatedCalldata := SwapCallData.calldata updated in
      let updatedTo := SwapCallData.to updated in
      if strictNotEqual destExchange updatedTo then
        (Throw (mkError "Destination swap contract address changed"), h')
      else (Normal {| callData := updatedCalldata |}, h')
  end.

End SwapQuotes.

Arguments get {H}.
Arguments post {H}.
Arguments generateSwapCallData {H}.
Arguments executeSwap_update {H}.
Arguments executeSwapBridgeSwap_update {H}.

(** ** Observations on a run *)

Definition onProgressEvent (x : Entry) : option SwapAndBridgeProgress :=
  match call x with
  | COnProgress p => Some p
  | _ => None
  end.

(** The progress events delivered to the callback, in order of delivery. *)
Fixpoint events (tr : list Entry) : list SwapAndBridgeProgress :=
  match tr with
  | [] => []
  | x :: rest =>
      match onProgressEvent x with
      | Some p => p :: events rest
      | None => events rest
      end
  end.

(** The first exception raised by an external call, if any. *)
Fixpoint firstThrow (tr : list Entry) : option Error :=
  match tr with
  | [] => None
  | x :: rest =>
      match threw x with
      | Some e => Some e
      | None => firstThrow rest
      end
  end.

(** The completion of a run and its trace. *)
Definition outcome {W} (r : Completion Response.t * Machine W) : Completion Response.t :=
  fst r.

Definition trace {W} (r : Completion Response.t * Machine W) : list Entry :=
  calls (snd r).

(** The step order approve, swapAndBridge, fill. *)
Definition stepRank (s : Step) : nat :=
  match s with
  | approve => 0
  | swapAndBridge => 1
  | fill => 2
  end.

(** The place of a progress value in
    idle, approve:txPending, approve:txSuccess, swapAndBridge:txPending,
    swapAndBridge:txSuccess, fill:pending, fill:txSuccess. *)
Definition stageRank (p : SwapAndBridgeProgress) : nat :=
  match p with
  | ApproveIdle => 0
  | ApproveTxPending _ _ => 1
  | ApproveTxSuccess _ _ => 2
  | SwapAndBridgeTxPending _ _ => 3
  | SwapAndBridgeTxSuccess _ _ _ _ => 4
  | FillPending _ => 5
  | FillTxSuccess _ _ _ _ _ => 6
  | ProgressError _ _ _ => 7
  end.

(** [q] may be delivered after [p] as far as steps go. *)
Definition stepOrdered (p q : SwapAndBridgeProgress) : Prop :=
  (stepRank (step p) <= stepRank (step q))%nat.

(** [p] is not an error event, and a later non-error event [q] is further on
    in the state machine. *)
Definition precedes (p q : SwapAndBridgeProgress) : Prop :=
  status p <> error /\ (status q <> error -> (stageRank p < stageRank q)%nat).

Definition isAllowanceRead (c : Call) : bool :=
  match c with
  | CReadContract _ functionName _ => String.eqb functionName "allowance"
  | _ => false
  end.

Definition isApprovalTransaction (c : Call) : bool :=
  match c with
  | CSendTransaction req =>
      match txData req with
      | Encoded (FnApprove _ _) => true
      | Encoded (FnSwapAndBridge _) => false
      end
  | _ => false
  end.

Definition isSwapAndBridgeTransaction (c : Call) : bool :=
  match c with
  | CSendTransaction req =>
      match txData req with
      | Encoded (FnSwapAndBridge _) => true
      | Encoded (FnApprove _ _) => false
      end
  | _ => false
  end.

(** Spender and amount of every approval transaction handed to
    [walletClient.sendTransaction]. *)
Fixpoint approvalsSubmitted (tr : list Entry) : list (Address * Z) :=
  match tr with
  | [] => []
  | x :: rest =>
      match call x with
      | CSendTransaction req =>
          match txData req with
          | Encoded (FnApprove s v) => (s, v) :: approvalsSubmitted rest
          | Encoded (FnSwapAndBridge _) => approvalsSubmitted rest
          end
      | _ => approvalsSubmitted rest
      end
  end.

(** The [meta] of the approve:txPending and approve:txSuccess events. *)
Fixpoint approveMetas (evs : list SwapAndBridgeProgress) : list ApproveMeta :=
  match evs with
  | [] => []
  | ApproveTxPending _ m :: rest => m :: approveMetas rest
  | ApproveTxSuccess _ m :: rest => m :: approveMetas rest
  | _ :: rest => approveMetas rest
  end.

(** The exception, if any, the callback raised when handed an error event. *)
Fixpoint callbackThrowOnError (tr : list Entry) : option Error :=
  match tr with
  | [] => None
  | x :: rest =>
      match call x, threw x with
      | COnProgress (ProgressError _ _ _), Some e => Some e
      | _, _ => callbackThrowOnError rest
      end
  end.

(** The result object of the failure path, [{ error }]. *)
Definition errorOnly (e : Error) : Response.t :=
  {| Response.depositId := None;
     Response.swapAndBridgeTxReceipt := None;
     Response.fillTxReceipt := None;
     Response.error := Some e |}.

(** The handler [executeSwapAndBridge] calls: the caller's, or the default
    one that logs. *)
Definition onProgressHandlerOf {W} (params : ExecuteSwapAndBridgeParams W)
  : ProgressHandler W :=
  match onProgress params with
  | Some handler => handler
  | None => consoleLogProgress
  end.

(** The trace entry of a call that returned. *)
Definition returned (c : Call) : Entry := {| call := c; threw := None |}.

(** The approval phase of a run started in world [w] came to its end having
    made the calls [made] and left world [w']: it was skipped; or the
    allowance read covered the amount; or an approval was submitted, announced,
    mined and announced again. *)
Definition approvalPhaseCompleted {W} (sdk : Sdk W)
  (params : ExecuteSwapAndBridgeParams W) (w : W) (made : list Entry) (w' : W)
  : Prop :=
  let data := swapAndDepositData params in
  let handler := onProgressHandlerOf params in
  let periphery := spokePoolPeripheryAddress params in
  let amount :=
    if withDefault false (infiniteApproval params) then maxUint256
    else swapTokenAmount data in
  let approveMeta := {| approvalAmount := amount; spender := periphery |} in
  let read :=
    returned
      (CReadContract (swapToken data) "allowance" [userAddress params; periphery]) in
  let approveRequest :=
    {| txAccount := account (walletClient params);
       txChain := originChain params;
       txTo := swapToken data;
       txData := Encoded (FnApprove periphery amount);
       txValue := None |} in
  (negb (withDefault false (skipAllowanceCheck params))
   && negb (withDefault false (isNative params)) = false
   /\ made = [] /\ w' = w)
  \/ (negb (withDefault false (skipAllowanceCheck params))
      && negb (withDefault false (isNative params)) = true
      /\ exists allowance,
           readContract (originClient params) (swapToken data) "allowance"
             [userAddress params; periphery] w = (Normal allowance, w')
           /\ swapTokenAmount data <= allowance
           /\ made = [read])
  \/ (negb (withDefault false (skipAllowanceCheck params))
      && negb (withDefault false (isNative params)) = true
      /\ exists allowance wa approveTxHash wb wc approveTxReceipt wd,
           readContract (originClient params) (swapToken data) "allowance"
             [userAddress params; periphery] w = (Normal allowance, wa)
           /\ allowance < swapTokenAmount data
           /\ encodeRejects sdk (FnApprove periphery amount) = None
           /\ sendTransaction (walletClient params) approveRequest wa =
                (Normal approveTxHash, wb)
           /\ handler (ApproveTxPending approveTxHash approveMeta) wb =
                (Normal tt, wc)
           /\ waitForTransactionReceipt (originClient params) approveTxHash wc =
                (Normal approveTxReceipt, wd)
           /\ handler (ApproveTxSuccess approveTxReceipt approveMeta) wd =
                (Normal tt, w')
           /\ made =
                [ read;
                  returned (CEncodeFunctionData (FnApprove periphery amount));
                  returned (CSendTransaction approveRequest);
                  returned (COnProgress (ApproveTxPending approveTxHash approveMeta));
                  returned (CWaitForTransactionReceipt approveTxHash);
                  returned
                    (COnProgress (ApproveTxSuccess approveTxReceipt approveMeta)) ]).

(** ** Concrete runs

    A scripted world over [unit]: every collaborator answers as the script
    says, or with the fixed successful answers below. *)

Definition base : Chain := {| id := 8453; chainName := "base" |}.
Definition arbitrum : Chain := {| id := 42161; chainName := "arbitrum" |}.

Definition weth : Address := "0x4200000000000000000000000000000000000006".
Definition usdc : Address := "0x833589fCD6eDb6E08f4c7C32D4f71b54bdA02913".
Definition periphery : Address := "0x89415a82d909a7238d69094c3dd1dcc1acbda85c".
Definition spokePoolBase : Address := "0x09aea4b2242abC8bb4BB78D537A67a245A7bEC64".
Definition spokePoolArbitrum : Address :=
  "0xe35e9842fceaCA96570B734083f4a58e8F7C5f2A".
Definition alice : Address := "0x00000000000000000000000000000000000a11ce".
Definition router : Address := "0x6131B5fae19EA4f9D964eAc0408E4408b66337b5".

Definition fiveUsdc : SwapAndDepositData :=
  {| submissionFees :=
       {| amount := 0;
          recipient := "0x0000000000000000000000000000000000000000" |};
     depositData :=
       {| BaseDepositData.inputToken := weth;
          BaseDepositData.outputToken := usdc;
          BaseDepositData.outputAmount := 4990000;
          BaseDepositData.depositor := alice;
          BaseDepositData.recipient := alice;
          BaseDepositData.destinationChainId := 42161;
          BaseDepositData.exclusiveRelayer :=
            "0x0000000000000000000000000000000000000000";
          BaseDepositData.quoteTimestamp := 1700000000;
          BaseDepositData.fillDeadline := 1700003600;
          BaseDepositData.exclusivityParameter := 0;
          BaseDepositData.message := "0x" |};
     swapToken := usdc;
     exchange := router;
     transferType := Approval;
     swapTokenAmount := 5000000;
     minExpectedInputTokenAmount := 4995000;
     routerCalldata := "0xe21fd0e9";
     enableProportionalAdjustment := true;
     spokePool := spokePoolBase;
     nonce := 7 |}.

Definition receiptOf (h : Hash) : TransactionReceipt :=
  {| transactionHash := h; blockNumber := 100; receiptStatus := "success"; logs := [] |}.

Definition approveHash : Hash := "0xa9902e".
Definition fillHash : Hash := "0xf111ed".

Record Script := {
  onAllowance : Completion Z;
  onSimulate : Completion unit;
  onSendSwapAndBridge : Completion Hash;
  onCallback : SwapAndBridgeProgress -> Completion unit
}.

Definition scriptedOrigin (s : Script) : PublicClient unit :=
  {| readContract := fun _ _ _ u => (onAllowance s, u);
     simulateContract := fun _ u => (onSimulate s, u);
     waitForTransactionReceipt := fun h u => (Normal (receiptOf h), u);
     getBlockNumber := fun u => (Normal 19000000, u) |}.

Definition scriptedWallet (s : Script) : WalletClient unit :=
  {| account := Some alice;
     sendTransaction :=
       fun req u =>
         match txData req with
         | Encoded (FnApprove _ _) => (Normal approveHash, u)
         | Encoded (FnSwapAndBridge _) => (onSendSwapAndBridge s, u)
         end |}.

Definition scriptedSdk : Sdk unit :=
  {| waitForDepositTx :=
       fun _ h u =>
         (Normal {| dtDepositId := 42; depositTxReceipt := receiptOf h |}, u);
     waitForFillTx :=
       fun _ u =>
         (Normal
            {| ftFillTxReceipt := receiptOf fillHash;
               ftFillTxTimestamp := 1700000123;
               ftActionSuccess := Some true |},
          u);
     parseDepositLogs := fun _ => Normal None;
     parseFillLogs := fun _ => Normal None;
     encodeRejects := fun _ => None |}.

Definition scriptedParams (s : Script)
  (isNative infiniteApproval skipAllowanceCheck throwOnError : option bool)
  : ExecuteSwapAndBridgeParams unit :=
  {| walletClient := scriptedWallet s;
     originClient := scriptedOrigin s;
     destinationClient := scriptedOrigin s;
     originChain := base;
     destinationChain := arbitrum;
     userAddress := alice;
     swapAndDepositData := fiveUsdc;
     spokePoolPeripheryAddress := periphery;
     destinationSpokePoolAddress := spokePoolArbitrum;
     isNative := isNative;
     infiniteApproval := infiniteApproval;
     skipAllowanceCheck := skipAllowanceCheck;
     throwOnError := throwOnError;
     onProgress := Some (fun p u => (onCallback s p, u)) |}.

Definition quietCallback : SwapAndBridgeProgress -> Completion unit :=
  fun _ => Normal tt.

(** A callback that throws on events of one status only. *)
Definition throwingOn (st : Status) (e : Error)
  : SwapAndBridgeProgress -> Completion unit :=
  fun p =>
    match status p, st with
    | idle, idle | txPending, txPending | txSuccess, txSuccess
    | pending, pending | error, error => Throw e
    | _, _ => Normal tt
    end.

Definition reverted : Error := mkError "execution reverted".
Definition rejected : Error := mkError "User rejected the request".
Definition rpcDown : Error := mkError "HTTP request failed".
Definition callbackFailed : Error := mkError "progress listener failed".

(** Everything succeeds; the allowance is zero. *)
Definition allGood : Script :=
  {| onAllowance := Normal 0;
     onSimulate := Normal tt;
     onSendSwapAndBridge := Normal "0x5a9b1d";
     onCallback := quietCallback |}.

(** The pre-send simulation reverts. *)
Definition simulationReverts : Script :=
  {| onAllowance := Normal 0;
     onSimulate := Throw reverted;
     onSendSwapAndBridge := Normal "0x5a9b1d";
     onCallback := quietCallback |}.

(** The allowance covers the amount; the wallet refuses the swapAndBridge
    transaction. *)
Definition allowedButRejected : Script :=
  {| onAllowance := Normal 9000000;
     onSimulate := Normal tt;
     onSendSwapAndBridge := Throw rejected;
     onCallback := quietCallback |}.

(** The allowance read fails and the callback throws on the error event. *)
Definition readFailsCallbackThrows : Script :=
  {| onAllowance := Throw rpcDown;
     onSimulate := Normal tt;
     onSendSwapAndBridge := Normal "0x5a9b1d";
     onCallback := throwingOn error callbackFailed |}.

(** The callback throws on every txPending event. *)
Definition callbackThrowsOnPending : Script :=
  {| onAllowance := Normal 9000000;
     onSimulate := Normal tt;
     onSendSwapAndBridge := Normal "0x5a9b1d";
     onCallback := throwingOn txPending callbackFailed |}.

(** The error events among the delivered events. *)
Definition errorEvents (evs : list SwapAndBridgeProgress)
  : list SwapAndBridgeProgress :=
  filter
    (fun p =>
       match status p with
       | error => true
       | _ => false
       end)
    evs.

(** The runs evaluated below. *)
Definition nativeSimulationReverts : Completion Response.t * Machine unit :=
  executeSwapAndBridge scriptedSdk
    (scriptedParams simulationReverts (Some true) None None None) tt.

Definition allowanceCoversWalletRejects : Completion Response.t * Machine unit :=
  executeSwapAndBridge scriptedSdk
    (scriptedParams allowedButRejected None None None None) tt.

Definition readFailsListenerThrows (throwOnError : option bool)
  : Completion Response.t * Machine unit :=
  executeSwapAndBridge scriptedSdk
    (scriptedParams readFailsCallbackThrows None None None throwOnError) tt.

Definition listenerThrowsOnPending : Completion Response.t * Machine unit :=
  executeSwapAndBridge scriptedSdk
    (scriptedParams callbackThrowsOnPending None None None (Some false)) tt.

Definition nativeSimulationReturned : Completion Response.t * Machine unit :=
  executeSwapAndBridge scriptedSdk
    (scriptedParams simulationReverts (Some true) None None (Some false)) tt.

Definition nativeAllGood : Completion Response.t * Machine unit :=
  executeSwapAndBridge scriptedSdk
    (scriptedParams allGood (Some true) None None None) tt.

Definition infiniteApprovalAllGood : Completion Response.t * Machine unit :=
  executeSwapAndBridge scriptedSdk
    (scriptedParams allGood None (Some true) None None) tt.

Definition pendingSwapAndBridge : SwapAndBridgeProgress :=
  SwapAndBridgeTxPending "0x5a9b1d"
    {| SwapAndBridgeMeta.swapAndDepositData := fiveUsdc |}.

(** A swap aggregator that answers every build request with [routerAddress]. *)
Definition aggregator (routerAddress : Address) : Axios unit :=
  {| get :=
       fun _ u =>
         (Normal
            {| routesData :=
                 Some
                   {| quoteDataData :=
                        Normal {| quoteRouteSummary := Some "route-1" |} |} |},
          u);
     post :=
       fun _ u =>
         (Normal
            {| buildDataData :=
                 Normal
                   {| buildCalldata := Some "0xe21fd0e9";
                      routerAddress := Some routerAddress |} |},
          u) |}.

Definition quoteWithSlippage (routerAddress : Address)
  : string -> Address -> Address -> Z -> Address -> Address -> string -> bool ->
    unit -> Completion SwapCallData.t * unit :=
  fun _ _ _ _ _ _ _ _ u =>
    (Normal
       {| SwapCallData.calldata := "0xe21fd0e9";
          SwapCallData.to := Some routerAddress |},
     u).

Definition otherRouter : Address := "0x1111111254EEB25477B68fb85Ed929f73A960582".

Definition kyberswapApi : string := "https://aggregator-api.kyberswap.com".

(** ** Further observations on a run *)

(** The requests handed to [walletClient.sendTransaction], in order. *)
Fixpoint transactionsSent (tr : list Entry) : list TransactionRequest :=
  match tr with
  | [] => []
  | x :: rest =>
      match call x with
      | CSendTransaction req => req :: transactionsSent rest
      | _ => transactionsSent rest
      end
  end.

(** Every entry of a trace with the entry before it. *)
Fixpoint withPredecessor (prev : option Entry) (tr : list Entry)
  : list (option Entry * Entry) :=
  match tr with
  | [] => []
  | x :: rest => (prev, x) :: withPredecessor (Some x) rest
  end.

(** How many calls of a kind a trace holds. *)
Definition countCalls (kind : Call -> bool) (tr : list Entry) : nat :=
  List.length (filter (fun x => kind (call x)) tr).

Definition isSimulateCall (c : Call) : bool :=
  match c with
  | CSimulateContract _ => true
  | _ => false
  end.

Definition isReceiptWait (c : Call) : bool :=
  match c with
  | CWaitForTransactionReceipt _ => true
  | _ => false
  end.

Definition isDepositWait (c : Call) : bool :=
  match c with
  | CWaitForDepositTx _ _ => true
  | _ => false
  end.

Definition isBlockNumberRead (c : Call) : bool :=
  match c with
  | CGetBlockNumber => true
  | _ => false
  end.

Definition isFillWait (c : Call) : bool :=
  match c with
  | CWaitForFillTx _ => true
  | _ => false
  end.

(** The events that are not error events. *)
Definition progressEvents (evs : list SwapAndBridgeProgress)
  : list SwapAndBridgeProgress :=
  filter
    (fun p =>
       match status p with
       | error => false
       | _ => true
       end)
    evs.

(** The [meta] property of a progress value; the idle one has none. *)
Definition metaOf (p : SwapAndBridgeProgress) : ProgressMeta :=
  match p with
  | ApproveIdle => MetaUndefined
  | ApproveTxPending _ m | ApproveTxSuccess _ m => MetaApprove m
  | SwapAndBridgeTxPending _ m | SwapAndBridgeTxSuccess _ _ _ m =>
      MetaSwapAndBridge m
  | FillPending m | FillTxSuccess _ _ _ m _ => MetaFill m
  | ProgressError _ _ m => m
  end.

(** ** [utils/helpers.ts]: transaction links *)

(** [chain.blockExplorers.default]. *)
Record BlockExplorer := { explorerName : string; explorerUrl : string }.

(** A viem chain with the property [createTransactionUrl] reads,
    [blockExplorers], which a chain may lack. *)
Record ExplorerChain := {
  chainOf : Chain;
  blockExplorers : option BlockExplorer
}.

(** [s.endsWith(suffix)]: some tail of [s] is [suffix]. *)
Fixpoint endsWith (s suffix : string) : bool :=
  if String.eqb s suffix then true
  else
    match s with
    | EmptyString => false
    | String _ rest => endsWith rest suffix
    end.

Definition createTransactionUrl (chain : ExplorerChain) (transactionHash : string)
  : Completion string :=
  match blockExplorers chain with
  | None => Throw (mkError "Chain has no block explorers")
  | Some explorers =>
      let blockExplorerUrl := explorerUrl explorers in
      let blockExplorerUrl :=
        if negb (endsWith blockExplorerUrl "/") then blockExplorerUrl ++ "/"
        else blockExplorerUrl in
      Normal (blockExplorerUrl ++ "tx/" ++ transactionHash)
  end.

(** ** The slippage floor of the swap-bridge-swap script *)

(** [(BigInt(originSwapAmountOut) * (10000n - BigInt(originSwapSlippageBps)))
    / 10000n]; bigint division truncates toward zero. *)
Definition minExpectedSwapOutputAmount (originSwapAmountOut : Z)
  (originSwapSlippageBps : Z) : Z :=
  Z.quot (originSwapAmountOut * (10000 - originSwapSlippageBps)) 10000.

Definition basescan : BlockExplorer :=
  {| explorerName := "Basescan"; explorerUrl := "https://basescan.org" |}.

Definition baseWithExplorer : ExplorerChain :=
  {| chainOf := base; blockExplorers := Some basescan |}.

Definition baseWithoutExplorer : ExplorerChain :=
  {| chainOf := base; blockExplorers := None |}.

(** ** The bridge-then-swap script ([executeSwap]) *)

(** [config.ts]: [parseUnits("5", 6)] and the decimals of the deposit token. *)
Definition inputAmount : Z := 5000000.
Definition originDepositTokenDecimals : Z := 6.

(** What [privateKeyToAccount] returns, as far as the script reads it. *)
Record Account := { accountAddress : Address }.

(** [createWalletClient({ account, chain, transport: http(rpcUrl) })]. *)
Record UserWalletClient := {
  walletAccount : Account;
  walletChain : Chain;
  walletRpcUrl : string
}.

(** The result of [createUserWallet]. *)
Record UserWallet := { client : UserWalletClient; address : Address }.

Record Route := {
  routeOriginChainId : Z;
  routeDestinationChainId : Z;
  routeInputToken : Address;
  routeOutputToken : Address
}.

(** [quote.deposit], opaque to the script. *)
Definition Deposit := Json.
Record Quote := { deposit : Deposit }.

(** The progress value [executeQuote] hands to the script's callback, with
    the properties the callback reads. *)
Record QuoteProgress := {
  qpStep : string;
  qpStatus : string;
  qpTxReceipt : option TransactionReceipt;
  qpDepositId : option Z;
  qpActionSuccess : option bool
}.

(** [`${depositId}`]. *)
Definition showDepositId (depositId : option Z) : string :=
  match depositId with
  | Some n => toString n
  | None => "undefined"
  end.

(** [txReceipt.transactionHash], a TypeError when the receipt is absent. *)
Definition receiptHash (txReceipt : option TransactionReceipt) : Completion Hash :=
  match txReceipt with
  | Some r => Normal (transactionHash r)
  | None => Throw (mkError "TypeError: Cannot read properties of undefined")
  end.

(** The [onProgress] callback [executeSwap] gives to [executeQuote]: the
    messages it hands to [logger.success], or what it throws.  [origin] and
    [destination] are [originChain] and [destinationChain.chain]. *)
Definition executeSwap_onProgress (origin destination : ExplorerChain)
  (progress : QuoteProgress) : Completion (list string) :=
  let txSuccess := String.eqb (qpStatus progress) "txSuccess" in
  if String.eqb (qpStep progress) "approve" && txSuccess then
    match receiptHash (qpTxReceipt progress) with
    | Throw e => Throw e
    | Normal h =>
        match createTransactionUrl origin h with
        | Throw e => Throw e
        | Normal link => Normal ["Approve TX: " ++ link]
        end
    end
  else if String.eqb (qpStep progress) "deposit" && txSuccess then
    match receiptHash (qpTxReceipt progress) with
    | Throw e => Throw e
    | Normal h =>
        match createTransactionUrl origin h with
        | Throw e => Throw e
        | Normal link =>
            Normal
              [ "Deposit TX: " ++ link;
                "Deposit ID: " ++ showDepositId (qpDepositId progress) ]
        end
    end
  else if String.eqb (qpStep progress) "fill" && txSuccess then
    match receiptHash (qpTxReceipt progress) with
    | Throw e => Throw e
    | Normal h =>
        match createTransactionUrl destination h with
        | Throw e => Throw e
        | Normal link =>
            Normal
              [ "Fill TX: " ++ link;
                if withDefault false (qpActionSuccess progress)
                then "Swap completed successfully"
                else "Swap failed" ]
        end
    end
  else Normal [].

Record ExecuteQuoteRequest := {
  eqWalletClient : UserWalletClient;
  eqDeposit : Deposit;
  eqOnProgress : QuoteProgress -> Completion (list string)
}.

Section Scripts.

Variable W : Type.

(** An action of the cross-chain message, with its [update] hook. *)
Record CrossChainAction := {
  target : option Address;
  actionCallData : Hex;
  actionValue : Z;
  update : Z -> W -> Completion UpdatedAction * W
}.

Record CrossChainMessage := {
  actions : list CrossChainAction;
  fallbackRecipient : Address
}.

Record QuoteRequest := {
  route : Route;
  quoteInputAmount : Z;
  crossChainMessage : CrossChainMessage
}.

(** The client [createAcrossClient] returns. *)
Record AcrossClient := {
  getQuote : QuoteRequest -> W -> Completion Quote * W;
  executeQuote : ExecuteQuoteRequest -> W -> Completion unit * W
}.

(** Everything [executeSwap] reaches outside the repository: the process
    environment, viem, the Across SDK, the HTTP client. *)
Record ScriptEnv := {
  PRIVATE_KEY : option string;
  RPC_URL : option string;
  defaultRpcUrl : Chain -> option string;
  explorers : Chain -> option BlockExplorer;
  privateKeyToAccount : string -> Completion Account;
  readBalanceOf : Chain -> Address -> Address -> W -> Completion Z * W;
  createAcrossClient : string -> list Chain -> Completion AcrossClient;
  axios : Axios W;
  encodeApprove : option Address -> Z -> Completion Hex;
  formatUnits : Z -> Z -> string
}.

(** [INTEGRATOR_ID] and [KYBERSWAP_API_URL] of [utils/constants], which is not
    among the sources. *)
Variable INTEGRATOR_ID : string.
Variable KYBERSWAP_API_URL : string.

Inductive ScriptCall :=
| SPrivateKeyToAccount (privateKey : string)
| SBalanceOf (chain : Chain) (tokenAddress userAddress : Address)
| SCreateAcrossClient (integratorId : string) (chains : list Chain)
| SRoutes (req : RoutesRequest)
| SBuild (req : BuildRequest)
| SEncodeApprove (spender : option Address) (amount : Z)
| SGetQuote (req : QuoteRequest)
| SExecuteQuote (req : ExecuteQuoteRequest).

(** The world, and the external calls the script itself has made so far,
    oldest first, each with what it threw.  What the SDK does while it runs
    [getQuote] or [executeQuote], the update hooks it may call there
    included, happens inside that one entry; the hooks therefore work on the
    world directly and add nothing to the journal. *)
Record Session := {
  outside : W;
  journal : list (ScriptCall * option Error)
}.

Definition Journaled (A : Type) : Type := Session -> Completion A * Session.

Definition journaled {A} (c : ScriptCall) (f : W -> Completion A * W) : Journaled A :=
  fun s =>
    let (r, w') := f (outside s) in
    (r, {| outside := w'; journal := journal s ++ [(c, thrown r)] |}).

Definition journaledPure {A} (c : ScriptCall) (r : Completion A) : Journaled A :=
  journaled c (fun w => (r, w)).

Definition andThen {A B} (c : Journaled A) (k : A -> Journaled B) : Journaled B :=
  fun s =>
    match c s with
    | (Normal a, s') => k a s'
    | (Throw e, s') => (Throw e, s')
    end.

(** The HTTP client with its requests journaled. *)
Definition journaledAxios (a : Axios W) : Axios Session :=
  {| get := fun req => journaled (SRoutes req) (get a req);
     post := fun req => journaled (SBuild req) (post a req) |}.

(** [createUserWallet] of [utils/helpers.ts]. *)
Definition createUserWallet (env : ScriptEnv) (privateKey rpcUrl : string)
  (chain : Chain) : Journaled UserWallet :=
  andThen
    (journaledPure (SPrivateKeyToAccount privateKey)
       (privateKeyToAccount env privateKey))
    (fun account s =>
       (Normal
          {| client :=
               {| walletAccount := account;
                  walletChain := chain;
                  walletRpcUrl := rpcUrl |};
             address := accountAddress account |},
        s)).

(** [getBalance] of [utils/helpers.ts]: one [balanceOf] read through a public
    client of [chain] on its default transport. *)
Definition getBalance (env : ScriptEnv) (chain : Chain)
  (userAddress tokenAddress : Address) : Journaled Z :=
  journaled (SBalanceOf chain tokenAddress userAddress)
    (readBalanceOf env chain tokenAddress userAddress).

(** [generateApproveCallData] of [utils/transactions.ts]. *)
Definition generateApproveCallData (env : ScriptEnv) (spender : option Address)
  (amount : Z) : Completion Hex :=
  encodeApprove env spender amount.

(** The [update] hook of the approve action. *)
Definition executeSwap_approveUpdate (env : ScriptEnv) (to : option Address)
  (updatedOutputAmount : Z) (w : W) : Completion UpdatedAction * W :=
  match generateApproveCallData env to updatedOutputAmount with
  | Throw e => (Throw e, w)
  | Normal data => (Normal {| callData := data |}, w)
  end.

(** [executeSwap()], run from world [w]. *)
Definition executeSwap (env : ScriptEnv) (w : W) : Completion unit * Session :=
  let start := {| outside := w; journal := [] |} in
  let privateKey := PRIVATE_KEY env in
  if falsy privateKey then (Throw (mkError "PRIVATE_KEY is not set"), start)
  else
    let rpcUrl :=
      if falsy (RPC_URL env) then defaultRpcUrl env base else RPC_URL env in
    if falsy rpcUrl then (Throw (mkError "RPC_URL is not set"), start)
    else
      match
        andThen
          (createUserWallet env (withDefault "" privateKey)
             (withDefault "" rpcUrl) base)
          (fun wallet =>
             let walletClient := client wallet in
             let userAddress := address wallet in
             andThen (getBalance env base userAddress usdc)
               (fun balance =>
                  if balance <? inputAmount then
                    fun s =>
                      (Throw
                         (mkError
                            ("Insufficient balance. Required: "
                             ++ formatUnits env inputAmount
                                  originDepositTokenDecimals
                             ++ ", Available: "
                             ++ formatUnits env balance
                                  originDepositTokenDecimals)),
                       s)
                  else
                    andThen
                      (journaledPure
                         (SCreateAcrossClient INTEGRATOR_ID [base; arbitrum])
                         (createAcrossClient env INTEGRATOR_ID [base; arbitrum]))
                      (fun acrossClient =>
                         andThen
                           (generateSwapCallData KYBERSWAP_API_URL
                              (journaledAxios (axios env))
                              (toString inputAmount) kyberTokenIn kyberTokenOut
                              userAddress userAddress destinationChainName true)
                           (fun initial =>
                              let to := SwapCallData.to initial in
                              let calldata := SwapCallData.calldata initial in
                              andThen
                                (journaledPure (SEncodeApprove to inputAmount)
                                   (generateApproveCallData env to inputAmount))
                                (fun approveCallData =>
                                   let message :=
                                     {| actions :=
                                          [ {| target := Some kyberTokenIn;
                                               actionCallData := approveCallData;
                                               actionValue := 0;
                                               update :=
                                                 executeSwap_approveUpdate env to |};
                                            {| target := to;
                                               actionCallData := calldata;
                                               actionValue := 0;
                                               update :=
                                                 executeSwap_update
                                                   KYBERSWAP_API_URL (axios env)
                                                   to userAddress |} ];
                                        fallbackRecipient := userAddress |} in
                                   let quoteRequest :=
                                     {| route :=
                                          {| routeOriginChainId := id base;
                                             routeDestinationChainId :=
                                               id arbitrum;
                                             routeInputToken := usdc;
                                             routeOutputToken := kyberTokenIn |};
                                        quoteInputAmount := inputAmount;
                                        crossChainMessage := message |} in
                                   andThen
                                     (journaled (SGetQuote quoteRequest)
                                        (getQuote acrossClient quoteRequest))
                                     (fun quote =>
                                        let executeRequest :=
                                          {| eqWalletClient := walletClient;
                                             eqDeposit := deposit quote;
                                             eqOnProgress :=
                                               executeSwap_onProgress
                                                 {| chainOf := base;
                                                    blockExplorers :=
                                                      explorers env base |}
                                                 {| chainOf := arbitrum;
                                                    blockExplorers :=
                                                      explorers env arbitrum |} |} in
                                        journaled (SExecuteQuote executeRequest)
                                          (executeQuote acrossClient
                                             executeRequest)))))))
          start
      with
      | (Normal done, s) => (Normal done, s)
      | (Throw caught, s) =>
          (* catch (error) { logger.error(...); throw error; } *)
          (Throw caught, s)
      end.

End Scripts.

Arguments target {W}.
Arguments actionCallData {W}.
Arguments actionValue {W}.
Arguments update {W}.
Arguments actions {W}.
Arguments fallbackRecipient {W}.
Arguments route {W}.
Arguments quoteInputAmount {W}.
Arguments crossChainMessage {W}.
Arguments getQuote {W}.
Arguments executeQuote {W}.
Arguments PRIVATE_KEY {W}.
Arguments RPC_URL {W}.
Arguments defaultRpcUrl {W}.
Arguments explorers {W}.
Arguments privateKeyToAccount {W}.
Arguments readBalanceOf {W}.
Arguments createAcrossClient {W}.
Arguments axios {W}.
Arguments encodeApprove {W}.
Arguments formatUnits {W}.
Arguments SPrivateKeyToAccount {W}.
Arguments SBalanceOf {W}.
Arguments SCreateAcrossClient {W}.
Arguments SRoutes {W}.
Arguments SBuild {W}.
Arguments SEncodeApprove {W}.
Arguments SGetQuote {W}.
Arguments SExecuteQuote {W}.
Arguments outside {W}.
Arguments journal {W}.
Arguments executeSwap_approveUpdate {W}.
Arguments executeSwap {W}.

(** The place of a call in the script. *)
Definition scriptStage {W} (c : ScriptCall W) : nat :=
  match c with
  | SPrivateKeyToAccount _ => 1
  | SBalanceOf _ _ _ => 2
  | SCreateAcrossClient _ _ => 3
  | SRoutes _ => 4
  | SBuild _ => 5
  | SEncodeApprove _ _ => 6
  | SGetQuote _ => 7
  | SExecuteQuote _ => 8
  end.

(** The three errors the script raises itself. *)
Definition isScriptError {W} (env : ScriptEnv W) (e : Error) : Prop :=
  e = mkError "PRIVATE_KEY is not set"
  \/ e = mkError "RPC_URL is not set"
  \/ exists balance,
       balance < inputAmount
       /\ e =
            mkError
              ("Insufficient balance. Required: "
               ++ formatUnits env inputAmount originDepositTokenDecimals
               ++ ", Available: "
               ++ formatUnits env balance originDepositTokenDecimals).

(** What [generateSwapCallData] raises after a request of [env]'s client has
    returned: its own two errors, or whatever the runtime raised on reading
    the route summary off the routes answer or on destructuring the build
    answer. *)
Definition isSwapCallDataError {W} (env : ScriptEnv W) (e : Error) : Prop :=
  e = mkError "No quote data returned"
  \/ e = mkError "No calldata data returned"
  \/ (exists request response quoteData w w',
        get (axios env) request w = (Normal response, w')
        /\ routesData response = Some quoteData
        /\ quoteDataData quoteData = Throw e)
  \/ (exists request response w w',
        post (axios env) request w = (Normal response, w')
        /\ buildDataData response = Throw e).

(** A scripted world for [executeSwap]: the balance read answers [balance],
    every other collaborator succeeds. *)
Definition aliceAccount : Account := {| accountAddress := alice |}.

Definition scriptedAcross : AcrossClient unit :=
  {| getQuote := fun _ u => (Normal {| deposit := "deposit-1" |}, u);
     executeQuote := fun _ u => (Normal tt, u) |}.

Definition scriptedEnv (privateKey : option string) (balance : Z)
  : ScriptEnv unit :=
  {| PRIVATE_KEY := privateKey;
     RPC_URL := None;
     defaultRpcUrl := fun _ => Some "https://mainnet.base.org";
     explorers := fun _ => Some basescan;
     privateKeyToAccount := fun _ => Normal aliceAccount;
     readBalanceOf := fun _ _ _ u => (Normal balance, u);
     createAcrossClient := fun _ _ => Normal scriptedAcross;
     axios := aggregator router;
     encodeApprove := fun _ _ => Normal "0x095ea7b3";
     formatUnits := fun value _ => toString value |}.

(** ** The progress callback of the swap-bridge-swap script *)

(** A call to [logger.step], [logger.success] or [logger.json] (its label). *)
Inductive LogLine :=
| LogStep (message : string)
| LogSuccess (message : string)
| LogJson (label : string).

(** The [onProgress] callback [executeSwapBridgeSwap] gives to
    [executeSwapAndBridge]: what it logs when it returns, or what it throws.
    Its tests on [step] and [status] single out one variant each; the test
    for the error status guards an empty block. *)
Definition executeSwapBridgeSwap_onProgress (origin destination : ExplorerChain)
  (destinationName : string) (progress : SwapAndBridgeProgress)
  : Completion (list LogLine) :=
  match progress with
  | ApproveTxPending txHash _ =>
      match createTransactionUrl origin txHash with
      | Throw e => Throw e
      | Normal link =>
          Normal
            [ LogStep "Approving SpokePoolPeriphery to spend tokens";
              LogSuccess ("Approve TX: " ++ link) ]
      end
  | ApproveTxSuccess _ _ => Normal [LogSuccess "Approval confirmed"]
  | SwapAndBridgeTxPending txHash _ =>
      match createTransactionUrl origin txHash with
      | Throw e => Throw e
      | Normal link =>
          Normal
            [ LogStep "Submitting swapAndBridge transaction";
              LogSuccess ("SwapAndBridge TX: " ++ link) ]
      end
  | SwapAndBridgeTxSuccess txReceipt depositId _ _ =>
      Normal
        [ LogSuccess
            ("Transaction confirmed in block " ++ toString (blockNumber txReceipt));
          LogSuccess ("Deposit ID: " ++ toString depositId);
          LogJson "Transaction receipt" ]
  | FillPending _ =>
      Normal
        [ LogStep "Waiting for fill on destination chain...";
          LogJson "Deposit details" ]
  | FillTxSuccess txReceipt _ _ _ fillLog =>
      match createTransactionUrl destination (transactionHash txReceipt) with
      | Throw e => Throw e
      | Normal link =>
          Normal
            ([ LogSuccess ("Fill transaction confirmed on " ++ destinationName);
               LogSuccess ("Fill TX: " ++ link);
               LogJson "Fill transaction details" ]
             ++ match fillLog with
                | Some _ => [LogJson "Fill log details"]
                | None => []
                end)%list
      end
  | ApproveIdle | ProgressError _ _ _ => Normal []
  end.

(** A logging callback as the handler [executeSwapAndBridge] calls: it leaves
    the world alone. *)
Definition loggingHandler {W} (callback : SwapAndBridgeProgress -> Completion (list LogLine))
  : ProgressHandler W :=
  fun progress w =>
    (match callback progress with
     | Normal _ => Normal tt
     | Throw e => Throw e
     end,
     w).

(** The entries of a trace that are deliveries to the callback. *)
Definition deliveries (tr : list Entry) : list Entry :=
  filter
    (fun x =>
       match call x with
       | COnProgress _ => true
       | _ => false
       end)
    tr.

(** The runs and requests evaluated for the properties above. *)
Definition scriptedFillRequest : FillRequest :=
  {| frDeposit :=
       {| fdOriginChainId := 8453;
          fdDestinationChainId := 42161;
          fdDestinationSpokePoolAddress := spokePoolArbitrum;
          fdMessage := "0x" |};
     frDepositId := 42;
     frDepositTxHash := "0x5a9b1d";
     frFromBlock := 18999900 |}.

Definition defaultsAllGood : Completion Response.t * Machine unit :=
  executeSwapAndBridge scriptedSdk (scriptedParams allGood None None None None) tt.

Definition fundedEnv : ScriptEnv unit := scriptedEnv (Some "0xkey") 5000000.

Definition fundedRun : Completion unit * Session unit :=
  executeSwap "integrator" kyberswapApi fundedEnv tt.

Definition aliceWalletClient : UserWalletClient :=
  {| walletAccount := aliceAccount;
     walletChain := base;
     walletRpcUrl := "https://mainnet.base.org" |}.


Definition scriptedExecuteRequest : ExecuteQuoteRequest :=
  {| eqWalletClient := aliceWalletClient;
     eqDeposit := "deposit-1";
     eqOnProgress :=
       executeSwap_onProgress
         {| chainOf := base; blockExplorers := Some basescan |}
         {| chainOf := arbitrum; blockExplorers := Some basescan |} |}.

Definition fillWithoutFlag : QuoteProgress :=
  {| qpStep := "fill";
     qpStatus := "txSuccess";
     qpTxReceipt := Some (receiptOf fillHash);
     qpDepositId := Some 42;
     qpActionSuccess := None |}.

(** The swap-bridge-swap callback on base and arbitrum, as a script. *)
Definition loggedSimulationReverts : Script :=
  {| onAllowance := Normal 0;
     onSimulate := Throw reverted;
     onSendSwapAndBridge := Normal "0x5a9b1d";
     onCallback :=
       fun progress =>
         match
           executeSwapBridgeSwap_onProgress baseWithExplorer baseWithExplorer
             "arbitrum" progress
         with
         | Normal _ => Normal tt
         | Throw e => Throw e
         end |}.

Definition loggedRun : Completion Response.t * Machine unit :=
  executeSwapAndBridge scriptedSdk
    (scriptedParams loggedSimulationReverts None None None None) tt.

Definition failingRoutes : RoutesRequest -> unit -> Completion RoutesResponse * unit :=
  fun _ u => (Throw rpcDown, u).

Definition propertyOfUndefined : Error :=
  mkError "Cannot read properties of undefined (reading 'routeSummary')".

(** A routes answer whose body has no [data]. *)
Definition unreadableRoutes
  : RoutesRequest -> unit -> Completion RoutesResponse * unit :=
  fun _ u =>
    (Normal {| routesData := Some {| quoteDataData := Throw propertyOfUndefined |} |},
     u).

(** A routes answer whose [data] is an object without a route summary. *)
Definition routesWithoutSummary
  : RoutesRequest -> unit -> Completion RoutesResponse * unit :=
  fun _ u =>
    (Normal
       {| routesData :=
            Some {| quoteDataData := Normal {| quoteRouteSummary := None |} |} |},
     u).

Definition badRequest : Error := mkError "Request failed with status code 400".

(** A build endpoint that refuses a request without a route summary. *)
Definition buildNeedsSummary
  : BuildRequest -> unit -> Completion BuildResponse * unit :=
  fun req u =>
    match routeSummary req with
    | None => (Throw badRequest, u)
    | Some _ => post (aggregator router) req u
    end.

(** * Properties *)

(** ** Symbolic execution of a run

    [exec] names the run [r], unfolds the orchestrator and splits on the head
    scrutinee (the answer of the next external call, or the next branch
    condition) until the run is a value; one goal per path remains. *)

Ltac head_scrutinee t :=
  lazymatch t with
  | match ?x with _ => _ end => head_scrutinee x
  | (match ?x with _ => _ end) _ => head_scrutinee x
  | _ => t
  end.

Ltac exec_step :=
  cbv beta iota zeta delta
    [try_catch bind ret throw external pure_external set_currentProgress
     set_currentProgressMeta callOnProgressHandler encodeFunctionData
     initialMachine fst snd currentProgress currentProgressMeta world calls
     thrown app];
  lazymatch goal with
  | |- ?lhs = _ -> _ =>
      let s := head_scrutinee lhs in
      tryif constr_eq s lhs then fail else destruct s eqn:?
  end.

Ltac exec :=
  intros;
  match goal with
  | |- context [executeSwapAndBridge ?sdk ?params ?w] =>
      let r := fresh "r" in
      let Hr := fresh "Hr" in
      remember (executeSwapAndBridge sdk params w) as r eqn:Hr;
      symmetry in Hr; revert Hr
  end;
  unfold executeSwapAndBridge;
  match goal with
  | |- context [callOnProgressHandler _ ?h] =>
      let handler := fresh "handler" in
      generalize h; intro handler
  end;
  repeat exec_step;
  let Hr := fresh "Hr" in
  intro Hr; subst;
  cbn [trace outcome fst snd calls events onProgressEvent call threw] in *.

Lemma strictNotEqual_spec (a b : option string) :
  strictNotEqual a b = true <-> a <> b.
Proof.
  destruct a as [x|], b as [y|]; simpl; split; intro Hd;
    try congruence; try discriminate.
  - apply negb_true_iff, String.eqb_neq in Hd. congruence.
  - apply negb_true_iff, String.eqb_neq. congruence.
Qed.

(** C10: no event with status idle is ever delivered to the progress callback;
    every run delivers at least one event, and the first one is
    approve:txPending, swapAndBridge:txPending or an error event. *)
Theorem idle_never_delivered W (sdk : Sdk W) params w :
  Forall (fun p => status p <> idle)
    (events (trace (executeSwapAndBridge sdk params w)))
  /\ exists p rest,
       events (trace (executeSwapAndBridge sdk params w)) = p :: rest
       /\ ((step p = approve /\ status p = txPending)
           \/ (step p = swapAndBridge /\ status p = txPending)
           \/ status p = error).
Proof.
  exec.
  all: split;
    [ repeat constructor; discriminate
    | do 2 eexists; split; [reflexivity | cbn; auto] ].
Qed.

(** C1: the progress events of a run are delivered in non-decreasing step
    order (approve, then swapAndBridge, then fill), the non-error events go
    strictly forward through approve:txPending, approve:txSuccess,
    swapAndBridge:txPending, swapAndBridge:txSuccess, fill:pending,
    fill:txSuccess, and no event is delivered after an error event. *)
Theorem progress_events_ordered W (sdk : Sdk W) params w :
  StronglySorted stepOrdered (events (trace (executeSwapAndBridge sdk params w)))
  /\ StronglySorted precedes (events (trace (executeSwapAndBridge sdk params w))).
Proof.
  exec.
  all: split; repeat constructor; cbn; try discriminate; try lia.
Qed.

(** C4: when [isNative] or [skipAllowanceCheck] is true, the run reads no
    allowance, submits no approval transaction, and delivers no approve event
    with status txPending or txSuccess. *)
Theorem native_or_skip_no_approval W (sdk : Sdk W) params w :
  isNative params = Some true \/ skipAllowanceCheck params = Some true ->
  Forall
    (fun x =>
       isAllowanceRead (call x) = false /\ isApprovalTransaction (call x) = false)
    (trace (executeSwapAndBridge sdk params w))
  /\ Forall
       (fun p => step p = approve -> status p <> txPending /\ status p <> txSuccess)
       (events (trace (executeSwapAndBridge sdk params w))).
Proof.
  intros Hskip.
  assert (Hcond :
            negb (withDefault false (skipAllowanceCheck params))
            && negb (withDefault false (isNative params)) = false).
  { destruct Hskip as [Hn | Hs].
    - rewrite Hn. apply andb_false_r.
    - rewrite Hs. reflexivity. }
  exec.
  all: try congruence.
  all: split; repeat constructor; cbn; intros; try discriminate;
    split; discriminate.
Qed.

(** C6: every approval transaction a run submits approves the periphery
    contract for [maxUint256] when [infiniteApproval] is true and for exactly
    [swapTokenAmount] otherwise, and the approve events carry that amount and
    that spender in their [meta]. *)
Theorem approval_amount_and_spender W (sdk : Sdk W) params w :
  Forall
    (fun sv =>
       sv =
         (spokePoolPeripheryAddress params,
          if withDefault false (infiniteApproval params) then maxUint256
          else swapTokenAmount (swapAndDepositData params)))
    (approvalsSubmitted (trace (executeSwapAndBridge sdk params w)))
  /\ Forall
       (fun m =>
          m =
            {| approvalAmount :=
                 if withDefault false (infiniteApproval params) then maxUint256
                 else swapTokenAmount (swapAndDepositData params);
               spender := spokePoolPeripheryAddress params |})
       (approveMetas (events (trace (executeSwapAndBridge sdk params w)))).
Proof.
  exec.
  all: cbn [approvalsSubmitted approveMetas call txData];
    split; repeat constructor.
Qed.

Ltac settle :=
  first
    [ eassumption
    | reflexivity
    | apply Z.gtb_lt; eassumption
    | apply Z.ltb_ge; rewrite <- Z.gtb_ltb; eassumption ].

(** C7: a run in which no external call throws returns exactly the deposit
    id and the receipt that [waitForDepositTx] gave for the hash the wallet
    returned for the swapAndBridge transaction of this run, and the receipt
    that [waitForFillTx] gave for that deposit id and that deposit
    transaction, with no error field.  The run is then, call for call, the
    completed approval phase followed by the encoding, the simulation and the
    submission of the swapAndBridge call, the wait for its deposit, the read of
    the destination block number and the wait for the fill from 100 blocks
    before it, each call made in the world its predecessor left, with the four
    events from swapAndBridge:txPending to fill:txSuccess delivered in
    between; the world it leaves is the one the last event left. *)
Theorem success_result_complete W (sdk : Sdk W) params w :
  firstThrow (trace (executeSwapAndBridge sdk params w)) = None ->
  exists made w0 w1 swapAndBridgeTxHash w2 w3 deposit depositLog w4 w5 w6
         destinationBlock w7 filled fillLog w8 w9 encoded,
    let data := swapAndDepositData params in
    let handler := onProgressHandlerOf params in
    let value :=
      if withDefault false (isNative params) then Some (swapTokenAmount data)
      else None in
    let simulateRequest :=
      {| simAddress := spokePoolPeripheryAddress params;
         simFunctionName := "swapAndBridge";
         simArgs := data;
         simAccount := userAddress params;
         simValue := value |} in
    let swapAndBridgeRequest :=
      {| txAccount := account (walletClient params);
         txChain := originChain params;
         txTo := spokePoolPeripheryAddress params;
         txData := Encoded (FnSwapAndBridge encoded);
         txValue := value |} in
    let swapAndBridgeMeta := {| SwapAndBridgeMeta.swapAndDepositData := data |} in
    let fillMeta := {| FillMeta.depositId := dtDepositId deposit |} in
    let fillRequest :=
      {| frDeposit :=
           {| fdOriginChainId := id (originChain params);
              fdDestinationChainId := id (destinationChain params);
              fdDestinationSpokePoolAddress := destinationSpokePoolAddress params;
              fdMessage := BaseDepositData.message (depositData data) |};
         frDepositId := dtDepositId deposit;
         frDepositTxHash := transactionHash (depositTxReceipt deposit);
         frFromBlock := destinationBlock - 100 |} in
    let pending := SwapAndBridgeTxPending swapAndBridgeTxHash swapAndBridgeMeta in
    let confirmed :=
      SwapAndBridgeTxSuccess (depositTxReceipt deposit) (dtDepositId deposit)
        depositLog swapAndBridgeMeta in
    let filledEvent :=
      FillTxSuccess (ftFillTxReceipt filled) (ftFillTxTimestamp filled)
        (ftActionSuccess filled) fillMeta fillLog in
    approvalPhaseCompleted sdk params w made w0
    /\ encodeRejects sdk (FnSwapAndBridge encoded) = None
    /\ simulateContract (originClient params) simulateRequest w0 = (Normal tt, w1)
    /\ sendTransaction (walletClient params) swapAndBridgeRequest w1 =
         (Normal swapAndBridgeTxHash, w2)
    /\ handler pending w2 = (Normal tt, w3)
    /\ waitForDepositTx sdk (id (originChain params)) swapAndBridgeTxHash w3 =
         (Normal deposit, w4)
    /\ parseDepositLogs sdk (logs (depositTxReceipt deposit)) = Normal depositLog
    /\ handler confirmed w4 = (Normal tt, w5)
    /\ handler (FillPending fillMeta) w5 = (Normal tt, w6)
    /\ getBlockNumber (destinationClient params) w6 = (Normal destinationBlock, w7)
    /\ waitForFillTx sdk fillRequest w7 = (Normal filled, w8)
    /\ parseFillLogs sdk (logs (ftFillTxReceipt filled)) = Normal fillLog
    /\ handler filledEvent w8 = (Normal tt, w9)
    /\ world (snd (executeSwapAndBridge sdk params w)) = w9
    /\ trace (executeSwapAndBridge sdk params w) =
         (made
          ++ [ returned (CEncodeFunctionData (FnSwapAndBridge encoded));
               returned (CSimulateContract simulateRequest);
               returned (CSendTransaction swapAndBridgeRequest);
               returned (COnProgress pending);
               returned
                 (CWaitForDepositTx (id (originChain params)) swapAndBridgeTxHash);
               returned (CParseDepositLogs (logs (depositTxReceipt deposit)));
               returned (COnProgress confirmed);
               returned (COnProgress (FillPending fillMeta));
               returned CGetBlockNumber;
               returned (CWaitForFillTx fillRequest);
               returned (CParseFillLogs (logs (ftFillTxReceipt filled)));
               returned (COnProgress filledEvent) ])%list
    /\ outcome (executeSwapAndBridge sdk params w) =
         Normal
           {| Response.depositId := Some (dtDepositId deposit);
              Response.swapAndBridgeTxReceipt := Some (depositTxReceipt deposit);
              Response.fillTxReceipt := Some (ftFillTxReceipt filled);
              Response.error := None |}
    /\ encoded = data.
Proof.
  intros Hclean.
  unfold approvalPhaseCompleted, onProgressHandlerOf, returned.
  exec.
  all: cbn [firstThrow threw] in Hclean; try discriminate Hclean.
  all: repeat match goal with u : unit |- _ => destruct u end.
  all: do 18 eexists; cbv zeta.
  all: split;
    [ first
        [ left; repeat (split; [reflexivity | ]); reflexivity
        | right; left; split; [reflexivity | ];
          eexists; repeat (split; [settle | ]); settle
        | right; right; split; [reflexivity | ];
          do 7 eexists; repeat (split; [settle | ]); settle ]
    | ].
  all: repeat (split; [first [eassumption | reflexivity] | ]).
  all: destruct (swapAndDepositData params); reflexivity.
Qed.

Ltac in_cases H :=
  cbn [In] in H;
  lazymatch type of H with
  | _ \/ _ => destruct H as [H | H]; [ | in_cases H ]
  | False => contradiction
  | _ => idtac
  end.

Ltac know_throwOnError :=
  repeat match goal with
    | H : negb (withDefault true _) = true |- _ =>
        apply negb_true_iff in H; rewrite H
    | H : negb (withDefault true _) = false |- _ =>
        apply negb_false_iff in H; rewrite H
    end.

(** C3, amended: when an external call of the run throws [e], the run
    completes as follows.  If the callback returns from the error event, the
    run returns [{ error: e }] with no other field when [throwOnError] is
    false, and re-raises [e] when [throwOnError] is true or absent.  If the
    callback throws on the error event, that exception is what the caller
    receives, whatever [throwOnError] is. *)
Theorem failure_returned_or_rethrown W (sdk : Sdk W) params w e :
  firstThrow (trace (executeSwapAndBridge sdk params w)) = Some e ->
  outcome (executeSwapAndBridge sdk params w) =
    match callbackThrowOnError (trace (executeSwapAndBridge sdk params w)) with
    | Some e' => Throw e'
    | None =>
        if withDefault true (throwOnError params) then Throw e
        else Normal (errorOnly e)
    end.
Proof.
  intros Hthrow.
  exec.
  all: cbn [firstThrow threw] in Hthrow; try discriminate Hthrow.
  all: injection Hthrow as <-.
  all: cbn [callbackThrowOnError call threw]; know_throwOnError; reflexivity.
Qed.

(** C9, amended: a throw of the callback on an error event is not caught and
    reaches the caller, and that call is the last of the run.  A throw [e] of
    the callback on any other event is caught: the only call that follows is
    the delivery of an error event carrying [e], and the run then completes as
    after any other failure. *)
Theorem callback_throw_caught_once W (sdk : Sdk W) params w p e :
  In {| call := COnProgress p; threw := Some e |}
    (trace (executeSwapAndBridge sdk params w)) ->
  (status p = error ->
   outcome (executeSwapAndBridge sdk params w) = Throw e
   /\ exists earlier,
        rev (trace (executeSwapAndBridge sdk params w)) =
          {| call := COnProgress p; threw := Some e |} :: earlier)
  /\ (status p <> error ->
      exists progressMeta after earlier,
        rev (trace (executeSwapAndBridge sdk params w)) =
          {| call := COnProgress (ProgressError p e progressMeta); threw := after |}
            :: {| call := COnProgress p; threw := Some e |} :: earlier
        /\ outcome (executeSwapAndBridge sdk params w) =
             match after with
             | Some e' => Throw e'
             | None =>
                 if withDefault true (throwOnError params) then Throw e
                 else Normal (errorOnly e)
             end).
Proof.
  intros Hin.
  exec.
  all: in_cases Hin; try discriminate Hin.
  all: injection Hin as <- <-.
  all: split; intros Hstatus; cbn [status] in Hstatus; try congruence.
  all: cbn [rev app].
  all: try (split; [reflexivity | eexists; reflexivity]).
  all: do 3 eexists; split; [reflexivity | know_throwOnError; reflexivity].
Qed.

(** ** Failures before the swapAndBridge transaction is pending *)

(** Whenever the pre-send simulation throws, no swapAndBridge transaction is
    handed to the wallet and exactly one error event is delivered; it carries
    the swapAndBridge [meta], yet its [step] is the one of the progress value
    it was spread from, which is still an approve one. *)
Lemma simulation_failure_not_broadcast W (sdk : Sdk W) params w req e :
  In {| call := CSimulateContract req; threw := Some e |}
    (trace (executeSwapAndBridge sdk params w)) ->
  Forall (fun x => isSwapAndBridgeTransaction (call x) = false)
    (trace (executeSwapAndBridge sdk params w))
  /\ exists spread,
       errorEvents (events (trace (executeSwapAndBridge sdk params w))) =
         [ProgressError spread e
            (MetaSwapAndBridge
               {| SwapAndBridgeMeta.swapAndDepositData :=
                    swapAndDepositData params |})]
       /\ step spread = approve.
Proof.
  intros Hin.
  exec.
  all: in_cases Hin; try discriminate Hin.
  all: injection Hin as <- <-.
  all: split; [repeat constructor | eexists; split; reflexivity].
Qed.

(** When the approval phase runs and the allowance read covers
    [swapTokenAmount], no approval transaction is submitted, no
    approve:txPending or approve:txSuccess event is delivered, and the call
    that follows the read is the encoding of the swapAndBridge call. *)
Lemma sufficient_allowance_no_approval W (sdk : Sdk W) params w allowance w' :
  withDefault false (skipAllowanceCheck params) = false ->
  withDefault false (isNative params) = false ->
  readContract (originClient params) (swapToken (swapAndDepositData params))
    "allowance" [userAddress params; spokePoolPeripheryAddress params] w =
    (Normal allowance, w') ->
  swapTokenAmount (swapAndDepositData params) <= allowance ->
  Forall (fun x => isApprovalTransaction (call x) = false)
    (trace (executeSwapAndBridge sdk params w))
  /\ approveMetas (events (trace (executeSwapAndBridge sdk params w))) = []
  /\ exists encoded rest,
       trace (executeSwapAndBridge sdk params w) =
         {| call :=
              CReadContract (swapToken (swapAndDepositData params)) "allowance"
                [userAddress params; spokePoolPeripheryAddress params];
            threw := None |}
           :: {| call := CEncodeFunctionData (FnSwapAndBridge encoded);
                 threw := encodeRejects sdk (FnSwapAndBridge encoded) |}
           :: rest.
Proof.
  intros Hskip Hnative Hread Hcovers.
  exec.
  all: try (rewrite Hskip, Hnative in *; discriminate).
  all: try congruence.
  all: try (injection Hread as -> ->).
  all: try (match goal with
            | Hgt : (_ >? _) = true |- _ => apply Z.gtb_lt in Hgt; lia
            end).
  all: split; [repeat constructor | split; [reflexivity | ]].
  all: do 2 eexists;
    match goal with
    | Hrej : encodeRejects _ _ = _ |- _ => rewrite Hrej
    end; reflexivity.
Qed.

(** C2: with the native asset (approval skipped) and a reverting simulation,
    the run makes three calls: the encoding, the simulation, and the delivery
    of one error event.  Nothing is broadcast, but the event's step is
    approve, not swapAndBridge. *)
Theorem simulation_failure_reported_as_approve :
  trace nativeSimulationReverts =
    [ {| call := CEncodeFunctionData (FnSwapAndBridge fiveUsdc); threw := None |};
      {| call :=
           CSimulateContract
             {| simAddress := periphery;
                simFunctionName := "swapAndBridge";
                simArgs := fiveUsdc;
                simAccount := alice;
                simValue := Some 5000000 |};
         threw := Some reverted |};
      {| call :=
           COnProgress
             (ProgressError ApproveIdle reverted
                (MetaSwapAndBridge
                   {| SwapAndBridgeMeta.swapAndDepositData := fiveUsdc |}));
         threw := None |} ]
  /\ map step (events (trace nativeSimulationReverts)) = [approve]
  /\ outcome nativeSimulationReverts = Throw reverted.
Proof.
  repeat split; reflexivity.
Qed.

(** C5: with an allowance of 9000000 for an amount of 5000000 and a wallet
    that refuses the swapAndBridge transaction, no approval is submitted, but
    the one event delivered has step approve. *)
Theorem sufficient_allowance_approve_error :
  approvalsSubmitted (trace allowanceCoversWalletRejects) = []
  /\ events (trace allowanceCoversWalletRejects) =
       [ProgressError ApproveIdle rejected
          (MetaSwapAndBridge
             {| SwapAndBridgeMeta.swapAndDepositData := fiveUsdc |})]
  /\ map step (events (trace allowanceCoversWalletRejects)) = [approve]
  /\ map (fun x => isAllowanceRead (call x)) (trace allowanceCoversWalletRejects) =
       [true; false; false; false; false]
  /\ outcome allowanceCoversWalletRejects = Throw rejected.
Proof.
  repeat split; reflexivity.
Qed.

(** ** Concrete runs: counterexamples and witnesses *)

(** C3, as stated, fails: the allowance read throws, [throwOnError] is false,
    and the callback throws on the error event; the run returns no result
    object but raises the callback's exception.  With [throwOnError] absent
    the exception raised is again the callback's, not the captured one. *)
Lemma failure_result_counterexample :
  firstThrow (trace (readFailsListenerThrows (Some false))) = Some rpcDown
  /\ outcome (readFailsListenerThrows (Some false)) = Throw callbackFailed
  /\ outcome (readFailsListenerThrows (Some false)) <> Normal (errorOnly rpcDown)
  /\ firstThrow (trace (readFailsListenerThrows None)) = Some rpcDown
  /\ outcome (readFailsListenerThrows None) = Throw callbackFailed
  /\ outcome (readFailsListenerThrows None) <> Throw rpcDown.
Proof.
  repeat split; try reflexivity; discriminate.
Qed.

Lemma failure_returned_or_rethrown_witness :
  firstThrow (trace nativeSimulationReturned) = Some reverted
  /\ outcome nativeSimulationReturned = Normal (errorOnly reverted).
Proof.
  split.
  - reflexivity.
  - apply
      (failure_returned_or_rethrown unit scriptedSdk
         (scriptedParams simulationReverts (Some true) None None (Some false))
         tt reverted).
    reflexivity.
Defined.

(** C9, as stated, fails: the callback throws on swapAndBridge:txPending with
    [throwOnError] false; the throw is caught, an error event is delivered,
    and the run returns normally with the exception in its error field. *)
Lemma callback_throw_counterexample :
  In {| call := COnProgress pendingSwapAndBridge; threw := Some callbackFailed |}
    (trace listenerThrowsOnPending)
  /\ events (trace listenerThrowsOnPending) =
       [ pendingSwapAndBridge;
         ProgressError pendingSwapAndBridge callbackFailed
           (MetaSwapAndBridge
              {| SwapAndBridgeMeta.swapAndDepositData := fiveUsdc |}) ]
  /\ outcome listenerThrowsOnPending = Normal (errorOnly callbackFailed)
  /\ outcome listenerThrowsOnPending <> Throw callbackFailed.
Proof.
  repeat split; try reflexivity; try discriminate.
  cbn. auto 10.
Qed.

Lemma callback_throw_caught_once_witness :
  In {| call := COnProgress pendingSwapAndBridge; threw := Some callbackFailed |}
    (trace listenerThrowsOnPending)
  /\ status pendingSwapAndBridge <> error
  /\ exists progressMeta after earlier,
       rev (trace listenerThrowsOnPending) =
         {| call :=
              COnProgress
                (ProgressError pendingSwapAndBridge callbackFailed progressMeta);
            threw := after |}
           :: {| call := COnProgress pendingSwapAndBridge;
                 threw := Some callbackFailed |}
           :: earlier
       /\ outcome listenerThrowsOnPending =
            match after with
            | Some e' => Throw e'
            | None => Normal (errorOnly callbackFailed)
            end.
Proof.
  assert (Hin :
            In {| call := COnProgress pendingSwapAndBridge;
                  threw := Some callbackFailed |}
              (trace listenerThrowsOnPending)).
  { cbn. auto 10. }
  split; [exact Hin | ].
  split; [discriminate | ].
  apply
    (callback_throw_caught_once unit scriptedSdk
       (scriptedParams callbackThrowsOnPending None None None (Some false))
       tt pendingSwapAndBridge callbackFailed Hin).
  discriminate.
Defined.

Lemma native_or_skip_no_approval_witness :
  isNative (scriptedParams allGood (Some true) None None None) = Some true
  /\ Forall
       (fun x =>
          isAllowanceRead (call x) = false
          /\ isApprovalTransaction (call x) = false)
       (trace nativeAllGood)
  /\ Forall
       (fun p => step p = approve -> status p <> txPending /\ status p <> txSuccess)
       (events (trace nativeAllGood)).
Proof.
  split.
  - reflexivity.
  - apply
      (native_or_skip_no_approval unit scriptedSdk
         (scriptedParams allGood (Some true) None None None) tt).
    left. reflexivity.
Defined.

Lemma success_result_complete_witness :
  firstThrow (trace infiniteApprovalAllGood) = None
  /\ exists made swapAndBridgeTxHash deposit filled encoded,
       approvalPhaseCompleted scriptedSdk
         (scriptedParams allGood None (Some true) None None) tt made tt
       /\ sendTransaction (scriptedWallet allGood)
            {| txAccount := Some alice;
               txChain := base;
               txTo := periphery;
               txData := Encoded (FnSwapAndBridge encoded);
               txValue := None |} tt =
            (Normal swapAndBridgeTxHash, tt)
       /\ encoded = fiveUsdc
       /\ waitForDepositTx scriptedSdk (id base) swapAndBridgeTxHash tt =
            (Normal deposit, tt)
       /\ waitForFillTx scriptedSdk
            {| frDeposit :=
                 {| fdOriginChainId := id base;
                    fdDestinationChainId := id arbitrum;
                    fdDestinationSpokePoolAddress := spokePoolArbitrum;
                    fdMessage := BaseDepositData.message (depositData fiveUsdc) |};
               frDepositId := dtDepositId deposit;
               frDepositTxHash := transactionHash (depositTxReceipt deposit);
               frFromBlock := 19000000 - 100 |} tt =
            (Normal filled, tt)
       /\ List.length (trace infiniteApprovalAllGood) = 18%nat
       /\ outcome infiniteApprovalAllGood =
            Normal
              {| Response.depositId := Some (dtDepositId deposit);
                 Response.swapAndBridgeTxReceipt := Some (depositTxReceipt deposit);
                 Response.fillTxReceipt := Some (ftFillTxReceipt filled);
                 Response.error := None |}.
Proof.
  split.
  - reflexivity.
  - pose proof
      (success_result_complete unit scriptedSdk
         (scriptedParams allGood None (Some true) None None) tt eq_refl)
      as Hrun.
    cbv zeta in Hrun.
    destruct Hrun
      as (made & w0 & w1 & swapAndBridgeTxHash & w2 & w3 & deposit & depositLog
          & w4 & w5 & w6 & destinationBlock & w7 & filled & fillLog & w8 & w9
          & encoded & Hphase & _ & _ & Hsend & _ & Hdeposit & _ & _ & _
          & Hblock & Hfill & _ & _ & _ & _ & Houtcome & Hencoded).
    destruct w0, w1, w2, w3, w4, w6, w7, w8.
    injection Hblock as Hblock.
    rewrite <- Hblock in Hfill.
    exists made, swapAndBridgeTxHash, deposit, filled, encoded.
    repeat split; first [assumption | reflexivity].
Defined.

(** The successful run above returns deposit id 42 and both receipts. *)
Example success_result_evaluated :
  outcome infiniteApprovalAllGood =
    Normal
      {| Response.depositId := Some 42;
         Response.swapAndBridgeTxReceipt := Some (receiptOf "0x5a9b1d");
         Response.fillTxReceipt := Some (receiptOf fillHash);
         Response.error := None |}.
Proof.
  reflexivity.
Qed.

(** A run that needs an approval, with [infiniteApproval]: the one approval
    submitted is for [maxUint256] to the periphery contract. *)
Example infinite_approval_submitted :
  approvalsSubmitted (trace infiniteApprovalAllGood) = [(periphery, maxUint256)]
  /\ approveMetas (events (trace infiniteApprovalAllGood)) =
       [ {| approvalAmount := maxUint256; spender := periphery |};
         {| approvalAmount := maxUint256; spender := periphery |} ]
  /\ map (fun p => (step p, status p)) (events (trace infiniteApprovalAllGood)) =
       [ (approve, txPending); (approve, txSuccess);
         (swapAndBridge, txPending); (swapAndBridge, txSuccess);
         (fill, pending); (fill, txSuccess) ].
Proof.
  repeat split; reflexivity.
Qed.

(** ** The swap-action update hooks *)

(** C8: in both scripts, when the updated quote comes back with a router
    address different from the one the action was built against, the update
    hook throws instead of returning call data. *)
Theorem router_change_is_fatal H (axios : Axios H) (url : string)
  (quote :
    string -> Address -> Address -> Z -> Address -> Address -> string -> bool ->
    H -> Completion SwapCallData.t * H)
  (original : option Address) (user : Address) (updatedOutputAmount : Z) (h : H) :
  (forall updated h',
     generateSwapCallData url axios (toString updatedOutputAmount) kyberTokenIn
       kyberTokenOut user user destinationChainName false h =
       (Normal updated, h') ->
     SwapCallData.to updated <> original ->
     executeSwap_update url axios original user updatedOutputAmount h =
       (Throw (mkError "Swap contract address changed"), h'))
  /\ (forall updated h',
        quote (toString updatedOutputAmount) destinationSwapTokenIn
          destinationSwapTokenOut destinationSwapSlippageBps user user
          destinationChainName false h =
          (Normal updated, h') ->
        SwapCallData.to updated <> original ->
        executeSwapBridgeSwap_update quote original user updatedOutputAmount h =
          (Throw (mkError "Destination swap contract address changed"), h')).
Proof.
  split; intros updated h' Hquote Hchanged.
  - unfold executeSwap_update. rewrite Hquote.
    assert (Hne : strictNotEqual original (SwapCallData.to updated) = true)
      by (apply strictNotEqual_spec; congruence).
    cbv zeta. rewrite Hne. reflexivity.
  - unfold executeSwapBridgeSwap_update. rewrite Hquote.
    assert (Hne : strictNotEqual original (SwapCallData.to updated) = true)
      by (apply strictNotEqual_spec; congruence).
    cbv zeta. rewrite Hne. reflexivity.
Qed.

Lemma router_change_is_fatal_witness :
  executeSwap_update kyberswapApi (aggregator otherRouter) (Some router) alice
    4990000 tt =
    (Throw (mkError "Swap contract address changed"), tt)
  /\ executeSwapBridgeSwap_update (quoteWithSlippage otherRouter) (Some router)
       alice 4990000 tt =
       (Throw (mkError "Destination swap contract address changed"), tt).
Proof.
  pose proof
    (router_change_is_fatal unit (aggregator otherRouter) kyberswapApi
       (quoteWithSlippage otherRouter) (Some router) alice 4990000 tt)
    as [Hswap Hbridge].
  split.
  - apply
      (Hswap
         {| SwapCallData.calldata := "0xe21fd0e9";
            SwapCallData.to := Some otherRouter |} tt).
    + reflexivity.
    + discriminate.
  - apply
      (Hbridge
         {| SwapCallData.calldata := "0xe21fd0e9";
            SwapCallData.to := Some otherRouter |} tt).
    + reflexivity.
    + discriminate.
Defined.

(** * Further properties of the orchestrator *)

(** X1: every transaction handed to the wallet is for [originChain] from the
    wallet's account.  An approval goes to the swap token and carries no
    value; the swapAndBridge transaction goes to the periphery contract,
    encodes exactly the caller's [swapAndDepositData], and carries
    [swapTokenAmount] as value when [isNative] is true and no value
    otherwise. *)
Theorem transactions_sent_shape W (sdk : Sdk W) params w :
  Forall
    (fun req =>
       txAccount req = account (walletClient params)
       /\ txChain req = originChain params
       /\ match txData req with
          | Encoded (FnApprove _ _) =>
              txTo req = swapToken (swapAndDepositData params)
              /\ txValue req = None
          | Encoded (FnSwapAndBridge data) =>
              txTo req = spokePoolPeripheryAddress params
              /\ data = swapAndDepositData params
              /\ txValue req =
                   if withDefault false (isNative params)
                   then Some (swapTokenAmount (swapAndDepositData params))
                   else None
          end)
    (transactionsSent (trace (executeSwapAndBridge sdk params w))).
Proof.
  exec.
  all: cbn [transactionsSent call].
  all: repeat constructor.
  all: cbn [txData]; destruct (swapAndDepositData params); reflexivity.
Qed.

(** X2: the swapAndBridge transaction is only ever sent right after a
    simulation that returned normally, and the simulation was of the same
    call: same contract, same [swapAndDepositData], same value, on behalf of
    [userAddress]. *)
Theorem send_follows_simulation W (sdk : Sdk W) params w :
  Forall
    (fun px : option Entry * Entry =>
       isSwapAndBridgeTransaction (call (snd px)) = true ->
       exists sim sent,
         fst px = Some {| call := CSimulateContract sim; threw := None |}
         /\ call (snd px) = CSendTransaction sent
         /\ simAddress sim = txTo sent
         /\ simValue sim = txValue sent
         /\ simArgs sim = swapAndDepositData params
         /\ simAccount sim = userAddress params
         /\ simFunctionName sim = "swapAndBridge")
    (withPredecessor None (trace (executeSwapAndBridge sdk params w))).
Proof.
  exec.
  all: cbn [withPredecessor].
  all: repeat constructor.
  all: cbn; intros Hsend; try discriminate Hsend.
  all: do 2 eexists; repeat split; reflexivity.
Qed.

(** X3: nothing is retried.  A run reads the allowance, submits an approval,
    waits for an approval receipt, simulates, submits the swapAndBridge
    transaction, waits for the deposit, reads the destination block number and
    waits for the fill at most once each. *)
Theorem no_call_repeated W (sdk : Sdk W) params w :
  Forall
    (fun kind =>
       (countCalls kind (trace (executeSwapAndBridge sdk params w)) <= 1)%nat)
    [ isAllowanceRead; isApprovalTransaction; isReceiptWait; isSimulateCall;
      isSwapAndBridgeTransaction; isDepositWait; isBlockNumberRead; isFillWait ].
Proof.
  exec.
  all: repeat constructor; cbn; lia.
Qed.

(** X4: a run delivers an error event exactly when one of its external calls
    throws, and then exactly one: it carries the first exception thrown and
    is spread from the last event delivered before it (from the idle value when
    there is none).  Unless that value is idle or approve:txSuccess, the
    error event keeps its [meta]. *)
Theorem error_event_spread_from_last W (sdk : Sdk W) params w :
  match firstThrow (trace (executeSwapAndBridge sdk params w)) with
  | None => errorEvents (events (trace (executeSwapAndBridge sdk params w))) = []
  | Some e =>
      exists spread progressMeta,
        errorEvents (events (trace (executeSwapAndBridge sdk params w))) =
          [ProgressError spread e progressMeta]
        /\ spread =
             last (progressEvents (events (trace (executeSwapAndBridge sdk params w))))
               ApproveIdle
        /\ match spread with
           | ApproveIdle | ApproveTxSuccess _ _ => True
           | _ => progressMeta = metaOf spread
           end
  end.
Proof.
  exec.
  all: cbn [firstThrow threw].
  all: try reflexivity.
  all: do 2 eexists; repeat split; reflexivity.
Qed.

(** X5: the non-error events of a run are an initial part of
    approve:txPending, approve:txSuccess, swapAndBridge:txPending,
    swapAndBridge:txSuccess, fill:pending, fill:txSuccess, or of the last
    four of these when no approval is made: no stage is skipped and none is
    delivered twice. *)
Theorem progress_is_a_prefix_of_the_stages W (sdk : Sdk W) params w :
  exists n,
    map stageRank
      (progressEvents (events (trace (executeSwapAndBridge sdk params w)))) =
      firstn n [1; 2; 3; 4; 5; 6]%nat
    \/ map stageRank
         (progressEvents (events (trace (executeSwapAndBridge sdk params w)))) =
         firstn n [3; 4; 5; 6]%nat.
Proof.
  exec.
  all: cbn [progressEvents filter status map stageRank].
  all: first
         [ exists 0%nat; left; reflexivity
         | exists 1%nat; left; reflexivity
         | exists 2%nat; left; reflexivity
         | exists 3%nat; left; reflexivity
         | exists 4%nat; left; reflexivity
         | exists 5%nat; left; reflexivity
         | exists 6%nat; left; reflexivity
         | exists 1%nat; right; reflexivity
         | exists 2%nat; right; reflexivity
         | exists 3%nat; right; reflexivity
         | exists 4%nat; right; reflexivity ].
Qed.

(** X6: a run never returns a partial result.  What it returns is either
    the three success fields without an error, after a run in which nothing
    threw, or the first exception thrown and nothing else, which happens only
    with [throwOnError] false.  What it raises is either the first exception
    thrown, with [throwOnError] true or absent, or the exception the callback
    raised on the error event. *)
Theorem result_is_all_or_error W (sdk : Sdk W) params w :
  match outcome (executeSwapAndBridge sdk params w) with
  | Normal resp =>
      (firstThrow (trace (executeSwapAndBridge sdk params w)) = None
       /\ exists depositId depositTxReceipt fillTxReceipt,
            resp =
              {| Response.depositId := Some depositId;
                 Response.swapAndBridgeTxReceipt := Some depositTxReceipt;
                 Response.fillTxReceipt := Some fillTxReceipt;
                 Response.error := None |})
      \/ (exists e,
            firstThrow (trace (executeSwapAndBridge sdk params w)) = Some e
            /\ resp = errorOnly e
            /\ throwOnError params = Some false)
  | Throw e =>
      (firstThrow (trace (executeSwapAndBridge sdk params w)) = Some e
       /\ withDefault true (throwOnError params) = true)
      \/ callbackThrowOnError (trace (executeSwapAndBridge sdk params w)) = Some e
  end.
Proof.
  exec.
  all: cbn [firstThrow callbackThrowOnError call threw].
  all: try (right; reflexivity).
  all: try (left; split; [reflexivity | do 3 eexists; reflexivity]).
  all: try (left; split;
            [ reflexivity
            | match goal with
              | Hflag : negb _ = false |- _ =>
                  apply negb_false_iff in Hflag; exact Hflag
              end ]).
  all: right; eexists; split; [reflexivity | split; [reflexivity | ]].
  all: idtac; match goal with
       | Hflag : negb (withDefault true (throwOnError ?p)) = true |- _ =>
           destruct (throwOnError p) as [[|]|]; cbn in Hflag;
           try discriminate Hflag; reflexivity
       end.
Qed.

(** [exec] for a goal that mentions the run in hypothesis [H] only. *)
Ltac exec_in H :=
  match type of H with
  | context [executeSwapAndBridge ?sdk ?params ?w] =>
      let r := fresh "r" in
      let Hr := fresh "Hr" in
      remember (executeSwapAndBridge sdk params w) as r eqn:Hr in *;
      symmetry in Hr; revert Hr
  end;
  unfold executeSwapAndBridge;
  match goal with
  | |- context [callOnProgressHandler _ ?h] =>
      let handler := fresh "handler" in
      generalize h; intro handler
  end;
  repeat exec_step;
  let Hr := fresh "Hr" in
  intro Hr; subst;
  cbn [trace outcome fst snd calls events onProgressEvent call threw] in *.

(** X7: the fill is awaited for the deposit the run itself made.  Whenever
    [waitForFillTx] is called, its deposit id and deposit transaction hash are
    those [waitForDepositTx] returned for the hash the wallet gave back for the
    swapAndBridge transaction, its chain ids, spoke pool and message are the
    caller's, and it scans from 100 blocks before the block number the
    destination client reported. *)
Theorem fill_wait_targets_the_deposit W (sdk : Sdk W) params w request t :
  In {| call := CWaitForFillTx request; threw := t |}
    (trace (executeSwapAndBridge sdk params w)) ->
  exists sent txHash deposit block w1 w2 w3 w4 w5 w6,
    sendTransaction (walletClient params) sent w1 = (Normal txHash, w2)
    /\ isSwapAndBridgeTransaction (CSendTransaction sent) = true
    /\ waitForDepositTx sdk (id (originChain params)) txHash w3 =
         (Normal deposit, w4)
    /\ getBlockNumber (destinationClient params) w5 = (Normal block, w6)
    /\ request =
         {| frDeposit :=
              {| fdOriginChainId := id (originChain params);
                 fdDestinationChainId := id (destinationChain params);
                 fdDestinationSpokePoolAddress :=
                   destinationSpokePoolAddress params;
                 fdMessage :=
                   BaseDepositData.message
                     (depositData (swapAndDepositData params)) |};
            frDepositId := dtDepositId deposit;
            frDepositTxHash := transactionHash (depositTxReceipt deposit);
            frFromBlock := block - 100 |}.
Proof.
  intros Hin.
  exec_in Hin.
  all: in_cases Hin; try discriminate Hin.
  all: injection Hin as <- <-.
  all: do 10 eexists.
  all: idtac; match goal with
       | Hsend : sendTransaction _ _ _ = _ |- _ =>
           split; [exact Hsend | split; [reflexivity | ]]
       end.
  all: split; [eassumption | split; [eassumption | reflexivity]].
Qed.

(** X8: when the approval phase runs, the allowance read comes back below
    [swapTokenAmount] and the encoder accepts the call, the run's first three
    calls are the allowance read for ([userAddress], periphery) on the swap
    token, the encoding of the approval, and its submission to the swap token
    on [originChain]; it is the only approval of the run. *)
Theorem insufficient_allowance_submits_approval W (sdk : Sdk W) params w
  allowance w' :
  withDefault false (skipAllowanceCheck params) = false ->
  withDefault false (isNative params) = false ->
  readContract (originClient params) (swapToken (swapAndDepositData params))
    "allowance" [userAddress params; spokePoolPeripheryAddress params] w =
    (Normal allowance, w') ->
  allowance < swapTokenAmount (swapAndDepositData params) ->
  encodeRejects sdk
    (FnApprove (spokePoolPeripheryAddress params)
       (if withDefault false (infiniteApproval params) then maxUint256
        else swapTokenAmount (swapAndDepositData params))) = None ->
  exists sendThrew rest,
    trace (executeSwapAndBridge sdk params w) =
      {| call :=
           CReadContract (swapToken (swapAndDepositData params)) "allowance"
             [userAddress params; spokePoolPeripheryAddress params];
         threw := None |}
        :: {| call :=
                CEncodeFunctionData
                  (FnApprove (spokePoolPeripheryAddress params)
                     (if withDefault false (infiniteApproval params)
                      then maxUint256
                      else swapTokenAmount (swapAndDepositData params)));
              threw := None |}
        :: {| call :=
                CSendTransaction
                  {| txAccount := account (walletClient params);
                     txChain := originChain params;
                     txTo := swapToken (swapAndDepositData params);
                     txData :=
                       Encoded
                         (FnApprove (spokePoolPeripheryAddress params)
                            (if withDefault false (infiniteApproval params)
                             then maxUint256
                             else swapTokenAmount (swapAndDepositData params)));
                     txValue := None |};
              threw := sendThrew |}
        :: rest
    /\ (countCalls isApprovalTransaction
          (trace (executeSwapAndBridge sdk params w)) = 1)%nat.
Proof.
  intros Hskip Hnative Hread Hbelow Haccepts.
  exec.
  all: try (rewrite Hskip, Hnative in *; discriminate).
  all: try congruence.
  all: try (injection Hread as -> ->).
  all: try (match goal with
            | Hgt : (_ >? _) = false |- _ =>
                rewrite Z.gtb_ltb in Hgt; apply Z.ltb_ge in Hgt; lia
            end).
  all: try (rewrite Haccepts in *; discriminate).
  all: do 2 eexists; split; reflexivity.
Qed.

(** * [createTransactionUrl] *)

Lemma endsWith_refl (s : string) : endsWith s s = true.
Proof.
  destruct s; cbn [endsWith]; now rewrite String.eqb_refl.
Qed.

Lemma endsWith_append (s suffix : string) : endsWith (s ++ suffix) suffix = true.
Proof.
  induction s as [| c s IH]; cbn [append].
  - apply endsWith_refl.
  - cbn [endsWith].
    destruct (String.eqb (String c (s ++ suffix)) suffix); [reflexivity | exact IH].
Qed.

Lemma append_cancel_l (a x y : string) : a ++ x = a ++ y -> x = y.
Proof.
  induction a as [| c a IH]; simpl; intros Heq.
  - exact Heq.
  - injection Heq as Heq. now apply IH.
Qed.

Lemma append_assoc (a b c : string) : (a ++ b) ++ c = a ++ (b ++ c).
Proof.
  induction a as [| x a IH]; simpl; [reflexivity | now rewrite IH].
Qed.

(** X9: a block-explorer URL without a trailing slash and the same URL with
    one give the same transaction link, the URL followed by [/tx/] and the
    hash: one slash is added when it is missing and none when it is there. *)
Theorem transaction_url_ignores_trailing_slash (chain : Chain)
  (name url transactionHash : string) :
  endsWith url "/" = false ->
  createTransactionUrl
    {| chainOf := chain;
       blockExplorers := Some {| explorerName := name; explorerUrl := url |} |}
    transactionHash =
    Normal (url ++ "/tx/" ++ transactionHash)
  /\ createTransactionUrl
       {| chainOf := chain;
          blockExplorers :=
            Some {| explorerName := name; explorerUrl := url ++ "/" |} |}
       transactionHash =
       Normal (url ++ "/tx/" ++ transactionHash).
Proof.
  intros Hbare.
  unfold createTransactionUrl. cbn [blockExplorers explorerUrl].
  rewrite Hbare, endsWith_append. cbn [negb].
  rewrite !append_assoc. split; reflexivity.
Qed.

Lemma transaction_url_ignores_trailing_slash_witness :
  endsWith "https://basescan.org" "/" = false
  /\ createTransactionUrl baseWithExplorer "0x5a9b1d" =
       Normal "https://basescan.org/tx/0x5a9b1d"
  /\ createTransactionUrl
       {| chainOf := base;
          blockExplorers :=
            Some {| explorerName := "Basescan";
                    explorerUrl := "https://basescan.org/" |} |}
       "0x5a9b1d" =
       Normal "https://basescan.org/tx/0x5a9b1d".
Proof.
  split.
  - reflexivity.
  - apply
      (transaction_url_ignores_trailing_slash base "Basescan"
         "https://basescan.org" "0x5a9b1d").
    reflexivity.
Defined.

(** X10: on a chain without block explorers [createTransactionUrl] throws
    its error for every hash, and it throws for a hash only on such a chain;
    on a chain with one the link ends with [tx/] and the hash, and two hashes
    with the same link on the same chain are the same hash. *)
Theorem transaction_url_determines_hash (chain : ExplorerChain) :
  (blockExplorers chain = None ->
   forall transactionHash,
     createTransactionUrl chain transactionHash =
       Throw (mkError "Chain has no block explorers"))
  /\ (forall transactionHash,
        (exists e, createTransactionUrl chain transactionHash = Throw e)
        <-> blockExplorers chain = None)
  /\ (blockExplorers chain <> None ->
      forall transactionHash,
      exists link,
        createTransactionUrl chain transactionHash = Normal link
        /\ endsWith link ("tx/" ++ transactionHash) = true)
  /\ (forall h1 h2 link,
        createTransactionUrl chain h1 = Normal link ->
        createTransactionUrl chain h2 = Normal link ->
        h1 = h2).
Proof.
  unfold createTransactionUrl.
  destruct (blockExplorers chain) as [explorers |].
  - split; [ | split; [ | split]].
    + discriminate.
    + intros h. split; [intros (e & Hthrow); discriminate Hthrow | discriminate].
    + intros _ h. eexists. split; [reflexivity | ].
      cbv zeta. apply endsWith_append.
    + intros h1 h2 link H1 H2. cbv zeta in H1, H2.
      rewrite <- H2 in H1. injection H1 as H1.
      apply append_cancel_l in H1.
      now apply (append_cancel_l "tx/") in H1.
  - split; [ | split; [ | split]].
    + reflexivity.
    + intros h. split; [reflexivity | intros _; eexists; reflexivity].
    + intros Hsome. now contradiction Hsome.
    + intros h1 h2 link H1. discriminate H1.
Qed.

Lemma transaction_url_determines_hash_witness :
  (exists link,
     createTransactionUrl baseWithExplorer "0x5a9b1d" = Normal link
     /\ endsWith link ("tx/" ++ "0x5a9b1d") = true)
  /\ (forall transactionHash,
        createTransactionUrl baseWithoutExplorer transactionHash =
          Throw (mkError "Chain has no block explorers")).
Proof.
  split.
  - apply
      (proj1 (proj2 (proj2 (transaction_url_determines_hash baseWithExplorer)))).
    discriminate.
  - apply (proj1 (transaction_url_determines_hash baseWithoutExplorer)).
    reflexivity.
Defined.

(** * The slippage floor *)

(** X11: for a non-negative quoted amount and a slippage between 0 and 10000
    basis points, the floor lies between 0 and the quoted amount, is the exact
    fraction rounded down (less than one unit below it), and is the quoted
    amount itself at 0 basis points. *)
Theorem slippage_floor_bounds (amountOut bps : Z) :
  0 <= amountOut ->
  0 <= bps <= 10000 ->
  0 <= minExpectedSwapOutputAmount amountOut bps <= amountOut
  /\ 10000 * minExpectedSwapOutputAmount amountOut bps
       <= amountOut * (10000 - bps)
       < 10000 * minExpectedSwapOutputAmount amountOut bps + 10000
  /\ minExpectedSwapOutputAmount amountOut 0 = amountOut.
Proof.
  intros Hamount Hbps.
  unfold minExpectedSwapOutputAmount.
  assert (Hnum : 0 <= amountOut * (10000 - bps)) by nia.
  rewrite Z.quot_div_nonneg by lia.
  pose proof (Z.div_mod (amountOut * (10000 - bps)) 10000 ltac:(lia)) as Hdm.
  pose proof (Z.mod_pos_bound (amountOut * (10000 - bps)) 10000 ltac:(lia)) as Hmod.
  repeat split; try nia.
  rewrite Z.sub_0_r, Z.quot_div_nonneg by lia.
  now rewrite Z.div_mul by lia.
Qed.

Lemma slippage_floor_bounds_witness :
  0 <= 4997501
  /\ 0 <= 10 <= 10000
  /\ 0 <= minExpectedSwapOutputAmount 4997501 10 <= 4997501
  /\ minExpectedSwapOutputAmount 4997501 10 = 4992503.
Proof.
  pose proof (slippage_floor_bounds 4997501 10 ltac:(lia) ltac:(lia))
    as (Hrange & _ & _).
  repeat split; try lia; try exact (proj1 Hrange); try exact (proj2 Hrange).
Defined.

(** X12: the floor grows with the quoted amount and shrinks as the slippage
    tolerance grows. *)
Theorem slippage_floor_monotone (amountOut amountOut' bps bps' : Z) :
  0 <= amountOut <= amountOut' ->
  0 <= bps' <= bps ->
  bps <= 10000 ->
  minExpectedSwapOutputAmount amountOut bps
    <= minExpectedSwapOutputAmount amountOut' bps'.
Proof.
  intros Hamount Hbps Hmax.
  unfold minExpectedSwapOutputAmount.
  rewrite !Z.quot_div_nonneg by nia.
  apply Z.div_le_mono; nia.
Qed.

Lemma slippage_floor_monotone_witness :
  minExpectedSwapOutputAmount 4997501 50 <= minExpectedSwapOutputAmount 5000000 10.
Proof.
  apply (slippage_floor_monotone 4997501 5000000 50 10); lia.
Defined.

(** * [generateSwapCallData] and the swap hook *)

Lemma falsy_false (s : option string) :
  falsy s = false -> exists v, s = Some v /\ v <> "".
Proof.
  destruct s as [v |]; simpl; [ | discriminate].
  intros Hne. exists v. split; [reflexivity | ].
  now apply String.eqb_neq.
Qed.

Lemma strictNotEqual_false (a b : option string) :
  strictNotEqual a b = false -> a = b.
Proof.
  destruct a as [x |], b as [y |]; simpl; intros Hsame;
    try discriminate; [ | reflexivity].
  apply negb_false_iff, String.eqb_eq in Hsame. now subst.
Qed.

(** X13: when [generateSwapCallData] returns, it has made exactly the two
    requests of a quote: a routes request for the given tokens and amount on
    [chain], answered with a body whose [data] is an object, then a build
    request with the given sender and recipient and a slippage tolerance of
    100, carrying whatever route summary that object has, none included.  The
    call data it returns is the one of the build answer and is not empty; the
    address it returns is the build answer's router address. *)
Theorem swap_call_data_comes_from_the_build H (url : string) (axios : Axios H)
  (amount : string) (tokenIn tokenOut sender recipient : Address)
  (chain : string) (initialQuote : bool) (h h' : H) (result : SwapCallData.t) :
  generateSwapCallData url axios amount tokenIn tokenOut sender recipient chain
    initialQuote h = (Normal result, h') ->
  exists quoteRoute built h1,
    get axios
      {| routesUrl := url ++ "/" ++ chain ++ "/api/v1/routes";
         tokenIn := tokenIn;
         tokenOut := tokenOut;
         amountIn := amount;
         gasInclude := true |} h =
      (Normal {| routesData := Some {| quoteDataData := Normal quoteRoute |} |},
       h1)
    /\ post axios
         {| buildUrl := url ++ "/" ++ chain ++ "/api/v1/route/build";
            routeSummary := quoteRouteSummary quoteRoute;
            sender := sender;
            buildRecipient := recipient;
            slippageTolerance := 100 |} h1 =
         (Normal {| buildDataData := Normal built |}, h')
    /\ buildCalldata built = Some (SwapCallData.calldata result)
    /\ SwapCallData.calldata result <> ""
    /\ SwapCallData.to result = routerAddress built.
Proof.
  unfold generateSwapCallData.
  destruct (get axios _ h) as [[[[[[quoteRoute | e]] |]] | e] h1] eqn:Hget;
    try discriminate.
  cbn [routesData quoteDataData].
  destruct (post axios _ h1) as [[[[built | e]] | e] h2] eqn:Hpost;
    try discriminate.
  cbn [buildDataData].
  destruct (falsy (buildCalldata built)) eqn:Hfalsy; try discriminate.
  intros Hresult. injection Hresult as <- <-.
  apply falsy_false in Hfalsy as (v & Hv & Hne).
  exists quoteRoute, built, h1.
  rewrite Hv. cbn. repeat split; auto.
Qed.

Lemma swap_call_data_comes_from_the_build_witness :
  exists quoteRoute built h1,
    get (aggregator router)
      {| routesUrl := kyberswapApi ++ "/" ++ "arbitrum" ++ "/api/v1/routes";
         tokenIn := kyberTokenIn;
         tokenOut := kyberTokenOut;
         amountIn := "5000000";
         gasInclude := true |} tt =
      (Normal {| routesData := Some {| quoteDataData := Normal quoteRoute |} |},
       h1)
    /\ post (aggregator router)
         {| buildUrl := kyberswapApi ++ "/" ++ "arbitrum" ++ "/api/v1/route/build";
            routeSummary := quoteRouteSummary quoteRoute;
            sender := alice;
            buildRecipient := alice;
            slippageTolerance := 100 |} h1 =
         (Normal {| buildDataData := Normal built |}, tt)
    /\ buildCalldata built = Some "0xe21fd0e9"
    /\ "0xe21fd0e9" <> ""
    /\ Some router = routerAddress built.
Proof.
  apply
    (swap_call_data_comes_from_the_build unit kyberswapApi (aggregator router)
       "5000000" kyberTokenIn kyberTokenOut alice alice "arbitrum" true tt tt
       {| SwapCallData.calldata := "0xe21fd0e9"; SwapCallData.to := Some router |}).
  reflexivity.
Defined.

(** X14: the build request depends on the routes answer having a [data]
    object, not on a route summary.  When the routes request throws, or is
    answered with no body, or with a body whose [data] cannot be read,
    [generateSwapCallData] throws in the state the routes request left and
    does the same whatever the client would answer to a build request.  When
    the body has a [data] object, with or without a route summary, the build
    request is made with that object's route summary, and what it throws is
    what [generateSwapCallData] throws. *)
Theorem no_quote_data_no_build_request H (url : string)
  (routes : RoutesRequest -> H -> Completion RoutesResponse * H)
  (build build' : BuildRequest -> H -> Completion BuildResponse * H)
  (amount : string) (tokenIn tokenOut sender recipient : Address)
  (chain : string) (initialQuote : bool) (h : H) :
  ((forall quoteRoute h1,
      routes
        {| routesUrl := url ++ "/" ++ chain ++ "/api/v1/routes";
           tokenIn := tokenIn;
           tokenOut := tokenOut;
           amountIn := amount;
           gasInclude := true |} h <>
        (Normal {| routesData := Some {| quoteDataData := Normal quoteRoute |} |},
         h1)) ->
   generateSwapCallData url {| get := routes; post := build |} amount tokenIn
     tokenOut sender recipient chain initialQuote h =
     generateSwapCallData url {| get := routes; post := build' |} amount tokenIn
       tokenOut sender recipient chain initialQuote h
   /\ exists e,
        generateSwapCallData url {| get := routes; post := build |} amount
          tokenIn tokenOut sender recipient chain initialQuote h =
          (Throw e,
           snd
             (routes
                {| routesUrl := url ++ "/" ++ chain ++ "/api/v1/routes";
                   tokenIn := tokenIn;
                   tokenOut := tokenOut;
                   amountIn := amount;
                   gasInclude := true |} h)))
  /\ (forall quoteRoute h1 e h2,
        routes
          {| routesUrl := url ++ "/" ++ chain ++ "/api/v1/routes";
             tokenIn := tokenIn;
             tokenOut := tokenOut;
             amountIn := amount;
             gasInclude := true |} h =
          (Normal {| routesData := Some {| quoteDataData := Normal quoteRoute |} |},
           h1) ->
        build
          {| buildUrl := url ++ "/" ++ chain ++ "/api/v1/route/build";
             routeSummary := quoteRouteSummary quoteRoute;
             sender := sender;
             buildRecipient := recipient;
             slippageTolerance := 100 |} h1 =
          (Throw e, h2) ->
        generateSwapCallData url {| get := routes; post := build |} amount
          tokenIn tokenOut sender recipient chain initialQuote h =
          (Throw e, h2)).
Proof.
  unfold generateSwapCallData. cbn [get post].
  split.
  - intros Hnone.
    destruct (routes _ h) as [[[[[[quoteRoute | e]] |]] | e] h1]; cbn [snd].
    + now contradiction (Hnone quoteRoute h1).
    + split; [reflexivity | eexists; reflexivity].
    + split; [reflexivity | eexists; reflexivity].
    + split; [reflexivity | eexists; reflexivity].
  - intros quoteRoute h1 e h2 Hroutes Hbuild.
    rewrite Hroutes. cbn [routesData quoteDataData].
    rewrite Hbuild. reflexivity.
Qed.

(** X15: the swap hook of [executeSwap] returns call data only when the
    aggregator, asked for a route for the updated output amount from
    [kyberTokenIn] to [kyberTokenOut] on arbitrum with the user as sender and
    recipient, builds it on the router the action was created with; what it
    returns is that build's call data, and it is not empty. *)
Theorem swap_hook_returns_the_rebuilt_call_data H (url : string)
  (axios : Axios H) (original : option Address) (user : Address)
  (updatedOutputAmount : Z) (h h' : H) (updated : UpdatedAction) :
  executeSwap_update url axios original user updatedOutputAmount h =
    (Normal updated, h') ->
  exists quoteRoute built h1,
    get axios
      {| routesUrl := url ++ "/" ++ destinationChainName ++ "/api/v1/routes";
         tokenIn := kyberTokenIn;
         tokenOut := kyberTokenOut;
         amountIn := toString updatedOutputAmount;
         gasInclude := true |} h =
      (Normal {| routesData := Some {| quoteDataData := Normal quoteRoute |} |},
       h1)
    /\ post axios
         {| buildUrl :=
              url ++ "/" ++ destinationChainName ++ "/api/v1/route/build";
            routeSummary := quoteRouteSummary quoteRoute;
            sender := user;
            buildRecipient := user;
            slippageTolerance := 100 |} h1 =
         (Normal {| buildDataData := Normal built |}, h')
    /\ routerAddress built = original
    /\ buildCalldata built = Some (callData updated)
    /\ callData updated <> "".
Proof.
  unfold executeSwap_update, generateSwapCallData.
  destruct (get axios _ h) as [[[[[[quoteRoute | e]] |]] | e] h1] eqn:Hget;
    try discriminate.
  cbn [routesData quoteDataData].
  destruct (post axios _ h1) as [[[[built | e]] | e] h2] eqn:Hpost;
    try discriminate.
  cbn [buildDataData].
  destruct (falsy (buildCalldata built)) eqn:Hfalsy; try discriminate.
  cbv zeta. cbn [SwapCallData.to SwapCallData.calldata].
  destruct (strictNotEqual original (routerAddress built)) eqn:Hrouter;
    try discriminate.
  intros Hresult. injection Hresult as <- <-.
  apply falsy_false in Hfalsy as (v & Hv & Hne).
  exists quoteRoute, built, h1.
  rewrite Hv. cbn. repeat split; auto.
  symmetry. now apply strictNotEqual_false.
Qed.

(** * The bridge-then-swap script *)

Ltac script_step :=
  cbv beta iota zeta delta
    [andThen journaled journaledPure createUserWallet getBalance
     generateSwapCallData journaledAxios generateApproveCallData thrown app];
  cbn [get post outside journal fst snd address client accountAddress];
  lazymatch goal with
  | |- ?lhs = _ -> _ =>
      let s := head_scrutinee lhs in
      tryif constr_eq s lhs then fail else destruct s eqn:?
  end.

Ltac run_script :=
  match goal with
  | |- context [executeSwap ?id ?url ?env ?w] =>
      let r := fresh "r" in
      let Hr := fresh "Hr" in
      remember (executeSwap id url env w) as r eqn:Hr in *;
      symmetry in Hr; revert Hr
  | H : context [executeSwap ?id ?url ?env ?w] |- _ =>
      let r := fresh "r" in
      let Hr := fresh "Hr" in
      remember (executeSwap id url env w) as r eqn:Hr in *;
      symmetry in Hr; revert Hr
  end;
  unfold executeSwap;
  repeat script_step;
  let Hr := fresh "Hr" in
  intro Hr; subst;
  cbn [fst snd journal outside SwapCallData.to SwapCallData.calldata] in *.

(** X16: [executeSwap] touches nothing without its configuration.  With
    [PRIVATE_KEY] unset or empty, or with [RPC_URL] unset or empty and no
    default RPC URL on the origin chain, it throws its own error before any
    external call and leaves the world as it was. *)
Theorem script_needs_configuration W (integratorId url : string)
  (env : ScriptEnv W) (w : W) :
  falsy (PRIVATE_KEY env) = true
  \/ (falsy (RPC_URL env) = true /\ falsy (defaultRpcUrl env base) = true) ->
  exists e,
    executeSwap integratorId url env w =
      (Throw e, {| outside := w; journal := [] |})
    /\ (e = mkError "PRIVATE_KEY is not set" \/ e = mkError "RPC_URL is not set").
Proof.
  intros [Hkey | [Hrpc Hdefault]]; unfold executeSwap.
  - rewrite Hkey. eexists. split; [reflexivity | now left].
  - destruct (falsy (PRIVATE_KEY env)).
    + eexists. split; [reflexivity | now left].
    + rewrite Hrpc, Hdefault. eexists. split; [reflexivity | now right].
Qed.

Lemma script_needs_configuration_witness :
  exists e,
    executeSwap "integrator" kyberswapApi (scriptedEnv (Some "") 5000000) tt =
      (Throw e, {| outside := tt; journal := [] |})
    /\ (e = mkError "PRIVATE_KEY is not set" \/ e = mkError "RPC_URL is not set").
Proof.
  apply
    (script_needs_configuration unit "integrator" kyberswapApi
       (scriptedEnv (Some "") 5000000) tt).
  left. reflexivity.
Defined.

(** X17: with a balance below [inputAmount] the script stops at its
    pre-flight check: after deriving the account and reading the balance of
    the deposit token on the origin chain it throws the insufficient-balance
    error, having asked for no swap route, no bridge quote and no
    execution. *)
Theorem insufficient_balance_stops_the_script W (integratorId url : string)
  (env : ScriptEnv W) (w w' : W) (account : Account) (balance : Z) :
  falsy (PRIVATE_KEY env) = false ->
  falsy (if falsy (RPC_URL env) then defaultRpcUrl env base else RPC_URL env)
    = false ->
  privateKeyToAccount env (withDefault "" (PRIVATE_KEY env)) = Normal account ->
  readBalanceOf env base usdc (accountAddress account) w = (Normal balance, w') ->
  balance < inputAmount ->
  executeSwap integratorId url env w =
    (Throw
       (mkError
          ("Insufficient balance. Required: "
           ++ formatUnits env inputAmount originDepositTokenDecimals
           ++ ", Available: "
           ++ formatUnits env balance originDepositTokenDecimals)),
     {| outside := w';
        journal :=
          [ (SPrivateKeyToAccount (withDefault "" (PRIVATE_KEY env)), None);
            (SBalanceOf base usdc (accountAddress account), None) ] |}).
Proof.
  intros Hkey Hrpc Haccount Hread Hbelow.
  unfold executeSwap.
  rewrite Hkey, Hrpc.
  cbv beta iota zeta delta
    [andThen journaled journaledPure createUserWallet getBalance thrown app].
  cbn [outside journal].
  rewrite Haccount. cbn [address accountAddress outside journal].
  rewrite Hread.
  apply Z.ltb_lt in Hbelow. rewrite Hbelow. reflexivity.
Qed.

Lemma insufficient_balance_stops_the_script_witness :
  3000000 < inputAmount
  /\ executeSwap "integrator" kyberswapApi (scriptedEnv (Some "0xkey") 3000000) tt =
       (Throw (mkError "Insufficient balance. Required: 5000000, Available: 3000000"),
        {| outside := tt;
           journal :=
             [ (SPrivateKeyToAccount "0xkey", None);
               (SBalanceOf base usdc alice, None) ] |}).
Proof.
  split.
  - reflexivity.
  - apply
      (insufficient_balance_stops_the_script unit "integrator" kyberswapApi
         (scriptedEnv (Some "0xkey") 3000000) tt tt aliceAccount 3000000);
      reflexivity.
Defined.

(** X18: the external calls the script makes itself come in one fixed order,
    account, balance, Across client, routes, build, approve encoding, bridge
    quote, execution, each at most once and none skipped, and the script
    stops at the first one that throws; the requests the SDK makes through the
    update hooks while it runs [getQuote] or [executeQuote] are not among
    them.  The script returns normally only when its last call is an
    [executeQuote] that returned.  What it throws is what its last call threw,
    or, with every call made so far returned, one of its own three errors
    or one that [generateSwapCallData] raised on the answer to its routes or
    build request. *)
Theorem script_stops_at_first_failure W (integratorId url : string)
  (env : ScriptEnv W) (w : W) :
  map (fun ct => scriptStage (fst ct))
    (journal (snd (executeSwap integratorId url env w))) =
    seq 1 (List.length (journal (snd (executeSwap integratorId url env w))))
  /\ Forall (fun ct => snd ct = None)
       (removelast (journal (snd (executeSwap integratorId url env w))))
  /\ match fst (executeSwap integratorId url env w) with
     | Normal _ =>
         exists request earlier,
           rev (journal (snd (executeSwap integratorId url env w))) =
             (SExecuteQuote request, None) :: earlier
     | Throw e =>
         (exists c earlier,
            rev (journal (snd (executeSwap integratorId url env w))) =
              (c, Some e) :: earlier)
         \/ (Forall (fun ct => snd ct = None)
               (journal (snd (executeSwap integratorId url env w)))
             /\ (isScriptError env e \/ isSwapCallDataError env e))
     end.
Proof.
  run_script.
  all: split; [reflexivity | split; [repeat constructor | ]].
  all: cbn [rev app].
  all: try (do 2 eexists; reflexivity).
  all: try (left; do 2 eexists; reflexivity).
  all: right; split; [repeat constructor | ].
  all: unfold isScriptError, isSwapCallDataError.
  all: first
         [ left; left; reflexivity
         | left; right; left; reflexivity
         | left; right; right; eexists; split; [ | reflexivity];
           now apply Z.ltb_lt
         | right; left; reflexivity
         | right; right; left; reflexivity
         | right; right; right; left; do 5 eexists;
           repeat (split; [eassumption | ]); eassumption
         | right; right; right; right; do 4 eexists; split; eassumption ].
Qed.

Ltac in_journal H :=
  cbn [In] in H;
  lazymatch type of H with
  | _ \/ _ => destruct H as [H | H]; [ | in_journal H ]
  | False => contradiction
  | _ => idtac
  end.


(** X20: [executeQuote] is given the deposit of the quote [getQuote]
    returned, and a wallet for the account derived from [PRIVATE_KEY], on
    base, whose RPC URL is [RPC_URL] when that is set and not empty and the
    chain's default RPC URL otherwise. *)
Theorem execution_uses_the_quoted_deposit W (integratorId url : string)
  (env : ScriptEnv W) (w : W) (request : ExecuteQuoteRequest)
  (t : option Error) :
  In (SExecuteQuote request, t)
    (journal (snd (executeSwap integratorId url env w))) ->
  exists account across quoteRequest quote w1 w2,
    privateKeyToAccount env (withDefault "" (PRIVATE_KEY env)) = Normal account
    /\ createAcrossClient env integratorId [base; arbitrum] = Normal across
    /\ getQuote across quoteRequest w1 = (Normal quote, w2)
    /\ eqDeposit request = deposit quote
    /\ eqWalletClient request =
         {| walletAccount := account;
            walletChain := base;
            walletRpcUrl :=
              withDefault ""
                (if falsy (RPC_URL env) then defaultRpcUrl env base
                 else RPC_URL env) |}
    /\ falsy (if falsy (RPC_URL env) then defaultRpcUrl env base else RPC_URL env)
         = false.
Proof.
  intros Hin.
  run_script.
  all: in_journal Hin; try discriminate Hin.
  all: injection Hin as <- <-.
  all: do 6 eexists.
  all: repeat (split; [first [eassumption | reflexivity] | ]).
  all: first [assumption | reflexivity].
Qed.

(** X21: the script's progress callback logs on three events only, the
    txSuccess of approve, deposit and fill, and returns without a message on
    every other one.  On those three it throws only when the receipt is
    missing or the chain it links to has no block explorer; a fill whose action
    flag is absent or false is reported as a failed swap. *)
Theorem script_callback_logs_successes_only (origin destination : ExplorerChain)
  (progress : QuoteProgress) :
  (qpStatus progress <> "txSuccess"
   \/ (qpStep progress <> "approve"
       /\ qpStep progress <> "deposit"
       /\ qpStep progress <> "fill") ->
   executeSwap_onProgress origin destination progress = Normal [])
  /\ (qpTxReceipt progress <> None ->
      blockExplorers origin <> None ->
      blockExplorers destination <> None ->
      exists messages,
        executeSwap_onProgress origin destination progress = Normal messages)
  /\ (qpStep progress = "fill" ->
      qpStatus progress = "txSuccess" ->
      qpActionSuccess progress <> Some true ->
      forall messages,
        executeSwap_onProgress origin destination progress = Normal messages ->
        In "Swap failed" messages).
Proof.
  unfold executeSwap_onProgress. cbv zeta.
  split; [ | split].
  - intros [Hstatus | (Happrove & Hdeposit & Hfill)].
    + apply String.eqb_neq in Hstatus. rewrite Hstatus.
      now rewrite !andb_false_r.
    + apply String.eqb_neq in Happrove, Hdeposit, Hfill.
      now rewrite Happrove, Hdeposit, Hfill.
  - intros Hreceipt Horigin Hdestination.
    unfold createTransactionUrl, receiptHash.
    destruct (qpTxReceipt progress) as [receipt |]; [ | now contradiction Hreceipt].
    destruct (blockExplorers origin); [ | now contradiction Horigin].
    destruct (blockExplorers destination); [ | now contradiction Hdestination].
    destruct (_ && _); [eexists; reflexivity | ].
    destruct (_ && _); [eexists; reflexivity | ].
    destruct (_ && _); eexists; reflexivity.
  - intros Hstep Hstatus Hflag messages Hresult.
    rewrite Hstep, Hstatus in Hresult. cbn in Hresult.
    destruct (receiptHash (qpTxReceipt progress)) as [h | e]; [ | discriminate].
    destruct (createTransactionUrl destination h); [ | discriminate].
    injection Hresult as <-.
    destruct (qpActionSuccess progress) as [[|] |]; cbn;
      [now contradiction Hflag | auto | auto].
Qed.

(** * The swap-bridge-swap callback under the orchestrator *)

Ltac exec_with Hcallback :=
  match goal with
  | |- context [executeSwapAndBridge ?sdk ?params ?w] =>
      let r := fresh "r" in
      let Hr := fresh "Hr" in
      remember (executeSwapAndBridge sdk params w) as r eqn:Hr in *;
      symmetry in Hr; revert Hr
  end;
  unfold executeSwapAndBridge; rewrite Hcallback; unfold loggingHandler;
  repeat exec_step;
  let Hr := fresh "Hr" in
  intro Hr; subst;
  cbn [trace outcome fst snd calls events onProgressEvent call threw] in *.

(** X22: run with the swap-bridge-swap script's callback, the orchestrator
    never has its failure path cut short: the callback returns from every
    error event, so a run in which a call throws re-raises that first exception
    when [throwOnError] is true or absent and returns it alone otherwise.
    When both chains have a block explorer the callback throws on no event at
    all. *)
Theorem script_callback_never_masks_a_failure W (sdk : Sdk W) params w
  (origin destination : ExplorerChain) (destinationName : string) :
  onProgress params =
    Some
      (loggingHandler
         (executeSwapBridgeSwap_onProgress origin destination destinationName)) ->
  callbackThrowOnError (trace (executeSwapAndBridge sdk params w)) = None
  /\ (forall e,
        firstThrow (trace (executeSwapAndBridge sdk params w)) = Some e ->
        outcome (executeSwapAndBridge sdk params w) =
          if withDefault true (throwOnError params) then Throw e
          else Normal (errorOnly e))
  /\ (blockExplorers origin <> None ->
      blockExplorers destination <> None ->
      Forall (fun x => threw x = None)
        (deliveries (trace (executeSwapAndBridge sdk params w)))).
Proof.
  intros Hcallback.
  exec_with Hcallback.
  all: repeat match goal with
         | Hcb : executeSwapBridgeSwap_onProgress _ _ _ _ = _ |- _ =>
             cbn [executeSwapBridgeSwap_onProgress] in Hcb;
             first [discriminate Hcb | revert Hcb]
         end.
  all: intros.
  all: split; [reflexivity | split].
  all: try (intros raised Hfirst; cbn [firstThrow threw] in Hfirst;
            first [discriminate Hfirst | injection Hfirst as <-];
            know_throwOnError; reflexivity).
  all: intros Horigin Hdestination.
  all: unfold createTransactionUrl in *.
  all: destruct (blockExplorers origin) eqn:Ho; [ | congruence].
  all: destruct (blockExplorers destination) eqn:Hd; [ | congruence].
  all: repeat match goal with
         | Hcb : match ?x with _ => _ end = _ |- _ => discriminate Hcb
         | Hcb : Normal _ = Throw _ |- _ => discriminate Hcb
         end.
  all: cbn [deliveries filter call]; repeat constructor.
Qed.

(** * Witnesses of the further properties *)

Lemma send_follows_simulation_witness :
  Forall
    (fun px : option Entry * Entry =>
       isSwapAndBridgeTransaction (call (snd px)) = true ->
       exists sim sent,
         fst px = Some {| call := CSimulateContract sim; threw := None |}
         /\ call (snd px) = CSendTransaction sent
         /\ simAddress sim = txTo sent
         /\ simValue sim = txValue sent
         /\ simArgs sim = fiveUsdc
         /\ simAccount sim = alice
         /\ simFunctionName sim = "swapAndBridge")
    (withPredecessor None (trace defaultsAllGood)).
Proof.
  apply
    (send_follows_simulation unit scriptedSdk
       (scriptedParams allGood None None None None) tt).
Defined.

Lemma fill_wait_targets_the_deposit_witness :
  In {| call := CWaitForFillTx scriptedFillRequest; threw := None |}
    (trace defaultsAllGood)
  /\ exists sent txHash deposit block w1 w2 w3 w4 w5 w6,
       sendTransaction (scriptedWallet allGood) sent w1 = (Normal txHash, w2)
       /\ isSwapAndBridgeTransaction (CSendTransaction sent) = true
       /\ waitForDepositTx scriptedSdk 8453 txHash w3 = (Normal deposit, w4)
       /\ getBlockNumber (scriptedOrigin allGood) w5 = (Normal block, w6)
       /\ scriptedFillRequest =
            {| frDeposit :=
                 {| fdOriginChainId := 8453;
                    fdDestinationChainId := 42161;
                    fdDestinationSpokePoolAddress := spokePoolArbitrum;
                    fdMessage := "0x" |};
               frDepositId := dtDepositId deposit;
               frDepositTxHash := transactionHash (depositTxReceipt deposit);
               frFromBlock := block - 100 |}.
Proof.
  unfold defaultsAllGood.
  assert (Hin :
            In {| call := CWaitForFillTx scriptedFillRequest; threw := None |}
              (trace
                 (executeSwapAndBridge scriptedSdk
                    (scriptedParams allGood None None None None) tt))).
  { vm_compute. do 15 right. left. reflexivity. }
  split; [exact Hin | ].
  exact
    (fill_wait_targets_the_deposit unit scriptedSdk
       (scriptedParams allGood None None None None) tt scriptedFillRequest None
       Hin).
Defined.

Lemma insufficient_allowance_submits_approval_witness :
  0 < swapTokenAmount fiveUsdc
  /\ exists sendThrew rest,
       trace defaultsAllGood =
         {| call := CReadContract usdc "allowance" [alice; periphery];
            threw := None |}
           :: {| call := CEncodeFunctionData (FnApprove periphery 5000000);
                 threw := None |}
           :: {| call :=
                   CSendTransaction
                     {| txAccount := Some alice;
                        txChain := base;
                        txTo := usdc;
                        txData := Encoded (FnApprove periphery 5000000);
                        txValue := None |};
                 threw := sendThrew |}
           :: rest
       /\ (countCalls isApprovalTransaction (trace defaultsAllGood) = 1)%nat.
Proof.
  split.
  - reflexivity.
  - apply
      (insufficient_allowance_submits_approval unit scriptedSdk
         (scriptedParams allGood None None None None) tt 0 tt);
      reflexivity.
Defined.

Lemma no_quote_data_no_build_request_witness :
  (generateSwapCallData kyberswapApi
     {| get := failingRoutes; post := post (aggregator router) |} "5000000"
     kyberTokenIn kyberTokenOut alice alice "arbitrum" true tt =
     generateSwapCallData kyberswapApi
       {| get := failingRoutes; post := post (aggregator otherRouter) |} "5000000"
       kyberTokenIn kyberTokenOut alice alice "arbitrum" true tt
   /\ exists e,
        generateSwapCallData kyberswapApi
          {| get := failingRoutes; post := post (aggregator router) |} "5000000"
          kyberTokenIn kyberTokenOut alice alice "arbitrum" true tt =
          (Throw e, tt))
  /\ (exists e,
        generateSwapCallData kyberswapApi
          {| get := unreadableRoutes; post := post (aggregator router) |}
          "5000000" kyberTokenIn kyberTokenOut alice alice "arbitrum" true tt =
          (Throw e, tt))
  /\ generateSwapCallData kyberswapApi
       {| get := routesWithoutSummary; post := buildNeedsSummary |} "5000000"
       kyberTokenIn kyberTokenOut alice alice "arbitrum" true tt =
       (Throw badRequest, tt).
Proof.
  split; [ | split].
  - apply
      (proj1
         (no_quote_data_no_build_request unit kyberswapApi failingRoutes
            (post (aggregator router)) (post (aggregator otherRouter)) "5000000"
            kyberTokenIn kyberTokenOut alice alice "arbitrum" true tt)).
    intros quoteRoute h1. discriminate.
  - apply
      (proj1
         (no_quote_data_no_build_request unit kyberswapApi unreadableRoutes
            (post (aggregator router)) (post (aggregator otherRouter)) "5000000"
            kyberTokenIn kyberTokenOut alice alice "arbitrum" true tt)).
    intros quoteRoute h1. discriminate.
  - apply
      (proj2
         (no_quote_data_no_build_request unit kyberswapApi routesWithoutSummary
            buildNeedsSummary buildNeedsSummary "5000000" kyberTokenIn
            kyberTokenOut alice alice "arbitrum" true tt)
         {| quoteRouteSummary := None |} tt badRequest tt);
      reflexivity.
Defined.

Lemma swap_hook_returns_the_rebuilt_call_data_witness :
  exists quoteRoute built h1,
    get (aggregator router)
      {| routesUrl := kyberswapApi ++ "/" ++ destinationChainName ++ "/api/v1/routes";
         tokenIn := kyberTokenIn;
         tokenOut := kyberTokenOut;
         amountIn := toString 4990000;
         gasInclude := true |} tt =
      (Normal {| routesData := Some {| quoteDataData := Normal quoteRoute |} |},
       h1)
    /\ post (aggregator router)
         {| buildUrl :=
              kyberswapApi ++ "/" ++ destinationChainName ++ "/api/v1/route/build";
            routeSummary := quoteRouteSummary quoteRoute;
            sender := alice;
            buildRecipient := alice;
            slippageTolerance := 100 |} h1 =
         (Normal {| buildDataData := Normal built |}, tt)
    /\ routerAddress built = Some router
    /\ buildCalldata built = Some "0xe21fd0e9"
    /\ "0xe21fd0e9" <> "".
Proof.
  apply
    (swap_hook_returns_the_rebuilt_call_data unit kyberswapApi (aggregator router)
       (Some router) alice 4990000 tt tt {| callData := "0xe21fd0e9" |}).
  reflexivity.
Defined.


Lemma execution_uses_the_quoted_deposit_witness :
  In (SExecuteQuote scriptedExecuteRequest, None) (journal (snd fundedRun))
  /\ exists account across quoteRequest quote w1 w2,
       privateKeyToAccount fundedEnv (withDefault "" (PRIVATE_KEY fundedEnv)) =
         Normal account
       /\ createAcrossClient fundedEnv "integrator" [base; arbitrum] = Normal across
       /\ getQuote across quoteRequest w1 = (Normal quote, w2)
       /\ eqDeposit scriptedExecuteRequest = deposit quote
       /\ eqWalletClient scriptedExecuteRequest =
            {| walletAccount := account;
               walletChain := base;
               walletRpcUrl :=
                 withDefault ""
                   (if falsy (RPC_URL fundedEnv) then defaultRpcUrl fundedEnv base
                    else RPC_URL fundedEnv) |}
       /\ falsy
            (if falsy (RPC_URL fundedEnv) then defaultRpcUrl fundedEnv base
             else RPC_URL fundedEnv) = false.
Proof.
  assert (Hin :
            In (SExecuteQuote scriptedExecuteRequest, None)
              (journal (snd fundedRun))).
  { do 7 right. left. reflexivity. }
  split; [exact Hin | ].
  exact
    (execution_uses_the_quoted_deposit unit "integrator" kyberswapApi fundedEnv tt
       scriptedExecuteRequest None Hin).
Defined.

Lemma script_callback_logs_successes_only_witness :
  executeSwap_onProgress baseWithExplorer baseWithExplorer fillWithoutFlag =
    Normal ["Fill TX: https://basescan.org/tx/0xf111ed"; "Swap failed"]
  /\ In "Swap failed"
       ["Fill TX: https://basescan.org/tx/0xf111ed"; "Swap failed"].
Proof.
  split.
  - reflexivity.
  - apply
      (proj2
         (proj2
            (script_callback_logs_successes_only baseWithExplorer
               baseWithExplorer fillWithoutFlag))).
    + reflexivity.
    + reflexivity.
    + discriminate.
    + reflexivity.
Defined.

Lemma script_callback_never_masks_a_failure_witness :
  firstThrow (trace loggedRun) = Some reverted
  /\ callbackThrowOnError (trace loggedRun) = None
  /\ outcome loggedRun = Throw reverted.
Proof.
  destruct
    (script_callback_never_masks_a_failure unit scriptedSdk
       (scriptedParams loggedSimulationReverts None None None None) tt
       baseWithExplorer baseWithExplorer "arbitrum" eq_refl)
    as (Hmask & Hfirst & _).
  split; [reflexivity | split; [exact Hmask | ]].
  exact (Hfirst reverted eq_refl).
Defined.
